(** * imessage-backup-ui: the transformation pipeline of the static-site generator

    Shallow embedding of [utils.py] ([convert_date], [get_archive_format]) and of
    the pure parts of [html_creator.py] ([_get_chat_name], the sort and the
    message loop of [_create_chat_page], the ordering and the preview of
    [_create_index_page], the order of the two in [create_website]), with the
    properties the specification states about them. *)

From Stdlib Require Import ZArith Lia Ascii String List.
From stdpp Require Import base option list strings gmap pretty sorting.

Local Open Scope Z_scope.

(** ** Exceptions

    Python code that raises is embedded as a function into [result]; the
    constructors of [exn] are the exception classes that the embedded lines
    and [datetime.fromtimestamp] raise. *)

Inductive exn : Type :=
| KeyError (key : string)
| TypeError
| AttributeError
| OverflowError
| ValueError (msg : string).

Inductive result (A : Type) : Type :=
| Ok (a : A)
| Raise (e : exn).
Arguments Ok {A} a.
Arguments Raise {A} e.

#[global] Instance result_ret : MRet result := λ A a, Ok a.
#[global] Instance result_bind : MBind result := λ A B k r,
  match r with
  | Ok a => k a
  | Raise e => Raise e
  end.

(** ** Strings

    A Python [str] is embedded as [string]; one [ascii] stands for one
    character of the text. *)

(** [sep.join(l)] *)
Fixpoint join (sep : string) (l : list string) : string :=
  match l with
  | [] => ""
  | x :: l' =>
      match l' with
      | [] => x
      | _ :: _ => x +:+ sep +:+ join sep l'
      end
  end.

(** [c.lower()] on one character: the letters [A]..[Z] move to [a]..[z].
    Only these reach the letters of the keys that the embedded code compares
    a lowered string with. *)
Definition ascii_lower (c : ascii) : ascii :=
  let n := nat_of_ascii c in
  if ((65 <=? n) && (n <=? 90))%nat then ascii_of_nat (n + 32) else c.

(** [s.lower()] *)
Fixpoint lower (s : string) : string :=
  match s with
  | "" => ""
  | String c s' => String (ascii_lower c) (lower s')
  end.

(** [s[i:]] for [0 <= i] *)
Fixpoint str_drop (i : nat) (s : string) : string :=
  match i, s with
  | O, _ => s
  | S i', "" => ""
  | S i', String _ s' => str_drop i' s'
  end.

(** [s[:n]] for [0 <= n] *)
Definition str_take (n : nat) (s : string) : string := substring 0 n s.

(** [s.rfind(c)] with the search carried from index [i]: [None] is Python's
    [-1]. *)
Fixpoint rfind_from (c : ascii) (i : nat) (s : string) : option nat :=
  match s with
  | "" => None
  | String c' s' =>
      match rfind_from c (S i) s' with
      | Some j => Some j
      | None => if decide (c' = c) then Some i else None
      end
  end.

Definition rfind (c : ascii) (s : string) : option nat := rfind_from c 0 s.

(** [s.endswith(ext)] *)
Definition endswith (s ext : string) : bool :=
  (String.length ext <=? String.length s)%nat &&
  String.eqb (str_drop (String.length s - String.length ext) s) ext.

(** The double-quote character, for the HTML attribute values. *)
Definition dq : string := String "034"%char "".

(** [repr(s)] of a string, for the strings inside a list or a dictionary
    that an f-string formats. The quotes are double when the string holds a
    single quote and no double one, single otherwise; the quote, the
    backslash, the tab, the line feed and the carriage return are escaped
    with a backslash, and any other character that is not printable is
    written [\xNN]. *)
Definition hex_digit (n : nat) : ascii :=
  if (n <? 10)%nat then ascii_of_nat (48 + n) else ascii_of_nat (87 + n).

Definition printable (c : ascii) : bool :=
  let n := nat_of_ascii c in
  ((32 <=? n) && (n <? 127) || (161 <=? n) && negb (n =? 173))%nat.

Definition repr_char (quote c : ascii) : string :=
  let n := nat_of_ascii c in
  if decide (c = quote ∨ c = "\"%char) then String "\" (String c "")
  else if decide (n = 9%nat) then "\t"
  else if decide (n = 10%nat) then "\n"
  else if decide (n = 13%nat) then "\r"
  else if printable c then String c ""
  else String "\" (String "x" (String (hex_digit (Nat.div n 16))
                                (String (hex_digit (Nat.modulo n 16)) ""))).

Definition repr_str (s : string) : string :=
  let chars := list_ascii_of_string s in
  let quote :=
    if existsb (Ascii.eqb "'") chars && negb (existsb (Ascii.eqb "034") chars)
    then "034"%char else "'"%char in
  String quote (foldr (λ c acc, repr_char quote c +:+ acc) (String quote "") chars).

(** ** utils.py *)

Module Utils.

(** [epoch = 978307200]: Apple's epoch, 2001-01-01, in Unix seconds. *)
Definition epoch : Z := 978307200.

(** [convert_date]: Python's [//] on integers is floor division, as [Z.div]
    is for a positive divisor; Python integers are unbounded, as [Z]. *)
Definition convert_date (date : Z) : Z :=
  if decide (date > epoch * 1000 ^ 2)
  then date / 1000 ^ 3 + epoch
  else date + epoch.

(** [Path.suffix] of pathlib, on the final component [name] of the path:
    [i = name.rfind('.')], and the suffix is [name[i:]] when
    [0 < i < len(name) - 1], the empty string otherwise. *)
Definition suffix (name : string) : string :=
  match rfind "." name with
  | Some i =>
      if ((0 <? i) && (S i <? String.length name))%nat
      then str_drop i name
      else ""
  | None => ""
  end.

(** The [formats] dictionary, in insertion order ([keys()] follows it). *)
Definition formats : list (string * string) :=
  [ (".zip", "zip");
    (".tar", "tar");
    (".tgz", "gztar");
    (".tar.gz", "gztar");
    (".tbz", "bztar");
    (".tar.bz2", "bztar");
    (".txz", "xztar");
    (".tar.xz", "xztar") ].

(** [formats[extension]] / [extension in formats] *)
Fixpoint formats_lookup (extension : string) (d : list (string * string))
  : option string :=
  match d with
  | [] => None
  | (k, v) :: d' => if decide (k = extension) then Some v else formats_lookup extension d'
  end.

Definition unsupported_message (extension : string) : string :=
  "Unsupported archive format: " +:+ extension +:+
  ". Supported formats are: " +:+ join ", " (map fst formats).

(** [get_archive_format(filename)]; the argument is [filename.name], the
    final component of the path, which holds no path separator. *)
Definition get_archive_format (name : string) : result string :=
  let extension := lower (suffix name) in
  match formats_lookup extension formats with
  | None => Raise (ValueError (unsupported_message extension))
  | Some fmt => Ok fmt
  end.

End Utils.

(** ** html_creator.py: data

    The chat documents are loaded with [json.load]; a message is a Python
    [dict] read by subscript, so a key may be absent. Its values are what
    [json.load] returns for [null], for the booleans, the integers and the
    strings, and for the arrays and the objects of the document: a [list],
    and a [dict] that keeps the order of the document. A number written with
    a fraction or an exponent is loaded as a [float]; [value] has no floats. *)

#[warnings="-register-all"]
Inductive value : Type :=
| VNone
| VBool (b : bool)
| VInt (n : Z)
| VStr (s : string)
| VList (items : list value)
| VDict (items : list (string * value)).

(** Truth value of an object in [if v:] *)
Definition truthy (v : value) : bool :=
  match v with
  | VNone => false
  | VBool b => b
  | VInt n => negb (n =? 0)
  | VStr s => negb (String.eqb s "")
  | VList items => match items with [] => false | _ :: _ => true end
  | VDict items => match items with [] => false | _ :: _ => true end
  end.

(** [repr(v)] *)
Fixpoint repr (v : value) : string :=
  match v with
  | VNone => "None"
  | VBool true => "True"
  | VBool false => "False"
  | VInt n => pretty n
  | VStr s => repr_str s
  | VList items => "[" +:+ join ", " (map repr items) +:+ "]"
  | VDict items =>
      "{" +:+ join ", " (map (λ kv, repr_str kv.1 +:+ ": " +:+ repr kv.2) items)
      +:+ "}"
  end.

(** [str(v)], as an f-string field formats it: a string is itself, anything
    else is its [repr]. *)
Definition format_value (v : value) : string :=
  match v with
  | VStr s => s
  | _ => repr v
  end.

Abbreviation message := (gmap string value).

(** [d[key]] *)
Definition getitem (d : message) (key : string) : result value :=
  match d !! key with
  | Some v => Ok v
  | None => Raise (KeyError key)
  end.

(** A timestamp as an integer ([bool] is a subclass of [int]):
    [datetime.fromtimestamp] raises [TypeError] for [None], a string, a list
    and a dictionary. *)
Definition as_int (v : value) : result Z :=
  match v with
  | VInt n => Ok n
  | VBool b => Ok (Z.b2z b)
  | _ => Raise TypeError
  end.

(** [lambda m: m['date']], the key of both message sorts *)
Definition date_key (m : message) : result value := getitem m "date".

(** [message['date']] as the number that it must be *)
Definition timestamp_of (m : message) : result Z :=
  v ← date_key m; as_int v.

(** A chat document. [display_name] is read with [chat.get], so [None]
    stands for an absent key as well as for [null]; the other keys are read
    by subscript before any message is looked at. [participants] keeps the
    insertion order of the dictionary, which [values()] follows. *)
Record chat : Type := {
  chat_id : string;
  display_name : option string;
  participants : list (string * string);
  messages : list message;
  last_message_date : Z
}.

(** ** [list.sort] and [sorted]

    The key function is applied to every element first; a list of fewer than
    two elements is then returned as it is, without a comparison, and the
    keyed elements of a longer list are ordered by [<] on the keys alone,
    stably. For [reverse=True] the list is reversed before and after the sort,
    which keeps equal keys in their original order. The stable order is
    produced here by insertion; it is the only sorted order that is stable
    ([sort_keyed_unique] below).

    The keys that are compared are integers: a key that is no integer is
    reported as the [TypeError] that [<] raises for [None], for a dictionary
    and between an integer and anything else. The order that Python gives to
    strings among themselves, and to lists among themselves, is not part of
    the model. *)

Section Sort.
Context {A : Type}.

Fixpoint insert_keyed (x : Z * A) (l : list (Z * A)) : list (Z * A) :=
  match l with
  | [] => [x]
  | y :: l' => if decide (y.1 < x.1) then y :: insert_keyed x l' else x :: l
  end.

Fixpoint sort_keyed (l : list (Z * A)) : list (Z * A) :=
  match l with
  | [] => []
  | x :: l' => insert_keyed x (sort_keyed l')
  end.

(** The order of the keyed elements *)
Definition key_le : relation (Z * A) := λ x y, x.1 ≤ y.1.

Definition sort_keyed_reverse (reverse : bool) (l : list (Z * A)) : list (Z * A) :=
  if reverse then list.reverse (sort_keyed (list.reverse l)) else sort_keyed l.

Definition list_sort (key : A → result value) (reverse : bool) (l : list A)
  : result (list A) :=
  keys ← mapM key l;
  if decide (length l < 2)%nat then Ok l
  else
    keys ← mapM as_int keys;
    Ok ((sort_keyed_reverse reverse (zip keys l)).*2).
End Sort.

(** ** html_creator.py: the class [HtmlCreator] *)

Module HtmlCreator.

(** [_get_chat_name]: [list.remove] deletes the first occurrence. *)
Fixpoint list_remove (x : string) (l : list string) : list string :=
  match l with
  | [] => []
  | y :: l' => if decide (y = x) then l' else y :: list_remove x l'
  end.

(** Lines 508 to 517: the name for the list that is left. *)
Definition format_participants (participants : list string) : string :=
  match participants with
  | [] => "Empty Chat"
  | [p] => p
  | _ =>
      if decide (3 < length participants)%nat
      then join ", " (take 3 participants) +:+ "... (" +:+
           pretty (length participants) +:+ " people)"
      else join ", " participants
  end.

Definition _get_chat_name (c : chat) : string :=
  let participants := (participants c).*2 in
  let participants :=
    if decide ("Me" ∈ participants) then list_remove "Me" participants
    else participants in
  format_participants participants.

(** [chat.get('display_name') or self._get_chat_name(chat)] *)
Definition chat_name (c : chat) : string :=
  match display_name c with
  | Some s => if String.eqb s "" then _get_chat_name c else s
  | None => _get_chat_name c
  end.

(** [participants.get(sender_id, sender_id)]: the key is hashed first, which
    raises for a list and for a dictionary; the keys of the dictionary are
    strings, so any other sender that is no string falls through to the
    default. *)
Definition participants_get (ps : list (string * string)) (sender_id : value)
  : result value :=
  match sender_id with
  | VStr k =>
      match list_find (λ p, p.1 = k) ps with
      | Some (_, p) => Ok (VStr p.2)
      | None => Ok sender_id
      end
  | VList _ | VDict _ => Raise TypeError
  | _ => Ok sender_id
  end.

(** *** Calendar fields and [strftime] *)

Record datetime : Type := {
  year : Z; month : Z; day : Z; hour : Z; minute : Z; second : Z
}.

Definition digit (n : Z) : ascii := ascii_of_nat (48 + Z.to_nat (n mod 10)).

Definition pad2 (n : Z) : string :=
  String (digit (n / 10)) (String (digit n) "").

(** [strftime('%Y-%m-%d')]: the C library of Linux writes the year in
    decimal without padding, so the year 385 is [385]. *)
Definition strftime_date (d : datetime) : string :=
  pretty (year d) +:+ "-" +:+ pad2 (month d) +:+ "-" +:+ pad2 (day d).

(** [strftime('%I:%M %p')]: twelve-hour clock *)
Definition strftime_time (d : datetime) : string :=
  let h := hour d mod 12 in
  pad2 (if decide (h = 0) then 12 else h) +:+ ":" +:+ pad2 (minute d) +:+ " " +:+
  (if decide (hour d < 12) then "AM" else "PM").

(** The fields of a [datetime] object are always in these ranges. *)
Definition valid_datetime (d : datetime) : Prop :=
  1 ≤ year d ≤ 9999 ∧ 1 ≤ month d ≤ 12 ∧ 1 ≤ day d ≤ 31 ∧
  0 ≤ hour d < 24 ∧ 0 ≤ minute d < 60 ∧ 0 ≤ second d < 60.

(** The calendar date of a [datetime] *)
Definition calendar_date (d : datetime) : Z * Z * Z := (year d, month d, day d).

(** [datetime.fromtimestamp] in the zone UTC: the civil date of a day count
    from 1970-01-01, by eras of 400 years starting on a first of March. *)
Definition civil_from_days (days : Z) : Z * Z * Z :=
  let z := days + 719468 in
  let era := z / 146097 in
  let doe := z - era * 146097 in
  let yoe := (doe - doe / 1460 + doe / 36524 - doe / 146096) / 365 in
  let doy := doe - (365 * yoe + yoe / 4 - yoe / 100) in
  let mp := (5 * doy + 2) / 153 in
  let d := doy - (153 * mp + 2) / 5 + 1 in
  let m := if decide (mp < 10) then mp + 3 else mp - 9 in
  let y := yoe + era * 400 + (if decide (m ≤ 2) then 1 else 0) in
  (y, m, d).

Definition fromtimestamp_utc (t : Z) : result datetime :=
  let '(y, m, d) := civil_from_days (t / 86400) in
  let s := t mod 86400 in
  if decide (1 ≤ y ≤ 9999)
  then Ok {| year := y; month := m; day := d;
             hour := s / 3600; minute := s mod 3600 / 60; second := s mod 60 |}
  else Raise (ValueError ("year " +:+ pretty y +:+ " is out of range")).

(** *** The message loop of [_create_chat_page] *)

(** What the loop appends to [html], one constructor per group of lines. *)
Inductive fragment : Type :=
| DateDivider (date_str : string)
| MessageOpen (message_class sender_name time_str : string)
| TextBubble (text : string)
| ImageTag (attachment_path : string)
| AttachmentLink (attachment_path name : string)
| MessageClose.

(** The text each fragment stands for. *)
Definition render_fragment (f : fragment) : string :=
  match f with
  | DateDivider date_str =>
      "            <div class=" +:+ dq +:+ "date-divider" +:+ dq +:+ ">" +:+
      date_str +:+ "</div>
"
  | MessageOpen message_class sender_name time_str =>
      "            <div class=" +:+ dq +:+ message_class +:+ dq +:+ ">
" +:+ "                <div class=" +:+ dq +:+ "message-header" +:+ dq +:+ ">
" +:+ "                    <span class=" +:+ dq +:+ "sender" +:+ dq +:+ ">" +:+
      sender_name +:+ "</span>
" +:+ "                    <span class=" +:+ dq +:+ "time" +:+ dq +:+ ">" +:+
      time_str +:+ "</span>
" +:+ "                </div>
" +:+ "                <div class=" +:+ dq +:+ "message-content" +:+ dq +:+ ">
"
  | TextBubble text =>
      "                    <p>" +:+ text +:+ "</p>
"
  | ImageTag attachment_path =>
      "                    <img src=" +:+ dq +:+ attachment_path +:+ dq +:+
      " alt=" +:+ dq +:+ "Attachment" +:+ dq +:+
      " class=" +:+ dq +:+ "message-image" +:+ dq +:+ ">
"
  | AttachmentLink attachment_path name =>
      "                    <a href=" +:+ dq +:+ attachment_path +:+ dq +:+
      " class=" +:+ dq +:+ "attachment-link" +:+ dq +:+ ">Attachment: " +:+
      name +:+ "</a>
"
  | MessageClose =>
      "                </div>
" +:+ "            </div>
"
  end.

Definition image_extensions : list string := [".jpg"; ".jpeg"; ".png"; ".gif"].

(** The attachment element of a message, lines 130 to 136: [.lower()] exists
    on strings only, so any other value that is true raises. *)
Definition attachment_fragments (v : value) : result (list fragment) :=
  if truthy v then
    match v with
    | VStr name =>
        let attachment_path := "../attachments/" +:+ name in
        if existsb (endswith (lower name)) image_extensions
        then Ok [ImageTag attachment_path]
        else Ok [AttachmentLink attachment_path name]
    | _ => Raise AttributeError
    end
  else Ok [].

Section Pages.

(** [datetime.fromtimestamp], in the local time zone of the process. *)
Variable fromtimestamp : Z → result datetime.

(** One iteration of the loop, lines 99 to 139: the new [current_date] and
    the fragments appended for this message. *)
Definition message_body (participants : list (string * string))
    (current_date : option string) (message : gmap string value)
  : result (option string * list fragment) :=
  t ← timestamp_of message;
  date ← fromtimestamp t;
  let date_str := strftime_date date in
  let time_str := strftime_time date in
  let '(current_date, divider) :=
    if decide (current_date ≠ Some date_str)
    then (Some date_str, [DateDivider date_str])
    else (current_date, []) in
  sender_id ← getitem message "sender";
  sender_name ← participants_get participants sender_id;
  is_from_me ← getitem message "is_from_me";
  let '(sender_name, message_class) :=
    if truthy is_from_me
    then ("Me", "message-outgoing")
    else (format_value sender_name, "message-incoming") in
  text ← getitem message "text";
  let bubble := if truthy text then [TextBubble (format_value text)] else [] in
  attachment ← getitem message "attachment_path";
  element ← attachment_fragments attachment;
  Ok (current_date,
      (divider ++ [MessageOpen message_class sender_name time_str] ++
       bubble ++ element ++ [MessageClose])%list).

(** The loop over the sorted messages: the fragments of each message in turn. *)
Fixpoint message_loop (participants : list (string * string))
    (current_date : option string) (messages : list (gmap string value))
  : result (list (list fragment)) :=
  match messages with
  | [] => Ok []
  | message :: rest =>
      '(current_date, chunk) ← message_body participants current_date message;
      chunks ← message_loop participants current_date rest;
      Ok (chunk :: chunks)
  end.

(** [_create_chat_page]: the title of the page, the messages as sorted in
    place by line 75, and the fragments of the loop. The constant header and
    footer of the page are not part of the model. *)
Definition _create_chat_page (c : chat)
  : result (string * list (gmap string value) * list (list fragment)) :=
  let name := chat_name c in
  sorted ← list_sort date_key false (messages c);
  chunks ← message_loop (participants c) None sorted;
  Ok (name, sorted, chunks).

(** The text of the message list, as appended to [html]. *)
Definition render_chunks (chunks : list (list fragment)) : string :=
  foldr (λ f acc, render_fragment f +:+ acc) "" (concat chunks).

(** *** [_create_index_page] *)

(** Lines 188 to 194: the text of the first message that has one, as the
    f-string of line 199 formats it. [len] exists on strings, lists and
    dictionaries; a list of more than 50 elements is sliced, and the slice is
    not added to a string; a dictionary of more than 50 entries is not
    sliced (in Python 3.11 the slice, which is the key, is not hashable). *)
Fixpoint first_text (sorted_messages : list (gmap string value)) : result string :=
  match sorted_messages with
  | [] => Ok ""
  | msg :: rest =>
      text ← getitem msg "text";
      if truthy text then
        match text with
        | VStr last_message =>
            if decide (50 < String.length last_message)%nat
            then Ok (str_take 50 last_message +:+ "...")
            else Ok last_message
        | VList items =>
            if decide (50 < length items)%nat
            then Raise TypeError
            else Ok (format_value text)
        | VDict items =>
            if decide (50 < length items)%nat
            then Raise TypeError
            else Ok (format_value text)
        | _ => Raise TypeError
        end
      else first_text rest
  end.

(** Lines 182 to 194 *)
Definition last_message_preview (c : chat) : result string :=
  match messages c with
  | [] => Ok ""
  | _ :: _ =>
      sorted_messages ← list_sort date_key true (messages c);
      first_text sorted_messages
  end.

(** Line 154 *)
Definition sort_chats (chats : list chat) : result (list chat) :=
  list_sort (λ c, Ok (VInt (last_message_date c))) true chats.

(** One entry of the chat list, lines 177 to 203. *)
Record index_entry : Type := {
  entry_chat_id : string;
  entry_chat_name : string;
  entry_last_message : string;
  entry_last_message_date : string
}.

Definition index_entry_of (c : chat) : result index_entry :=
  let name := chat_name c in
  date ← fromtimestamp (last_message_date c);
  let date_str := strftime_date date +:+ " " +:+ strftime_time date in
  last_message ← last_message_preview c;
  Ok {| entry_chat_id := chat_id c; entry_chat_name := name;
        entry_last_message := last_message;
        entry_last_message_date := date_str |}.

(** [_create_index_page]: the entries of the chat list, in page order. *)
Definition _create_index_page (chats : list chat) : result (list index_entry) :=
  sorted ← sort_chats chats;
  mapM index_entry_of sorted.

(** The chat document after [messages.sort] of line 75 has run on it. *)
Definition with_messages (c : chat) (sorted : list (gmap string value)) : chat :=
  {| chat_id := chat_id c; display_name := display_name c;
     participants := participants c; messages := sorted;
     last_message_date := last_message_date c |}.

(** [create_website], lines 42 to 52: the chat pages are made first, and the
    index page is made afterwards from the same documents, whose message lists
    the pages have sorted in place. *)
Definition create_website (chat_files : list chat)
  : result (list (string * list (list fragment)) * list index_entry) :=
  pages ← mapM (λ chat_json,
                  '(name, sorted, chunks) ← _create_chat_page chat_json;
                  Ok (with_messages chat_json sorted, (name, chunks)))
               chat_files;
  index ← _create_index_page pages.*1;
  Ok (pages.*2, index).

End Pages.

End HtmlCreator.

(** ** Vocabulary of the statements *)

(** A sort key that is an integer on [a]: [k] is the key as a plain function. *)
Definition integer_key {A : Type} (key : A → result value) (k : A → Z) (a : A)
  : Prop :=
  ∃ v, key a = Ok v ∧ as_int v = Ok (k a).

(** The integer that the record of a message holds under [date], read from
    the record itself ([true] and [false] are the integers 1 and 0). *)
Definition message_date (m : gmap string value) : option Z :=
  match m !! "date" with
  | Some (VInt n) => Some n
  | Some (VBool b) => Some (Z.b2z b)
  | _ => None
  end.

(** The timestamp of a message whose [date] is an integer. *)
Definition timestamp (m : gmap string value) : Z := default 0 (message_date m).

(** A message whose record holds an integer under [date]. *)
Definition has_timestamp (m : gmap string value) : Prop :=
  is_Some (message_date m).

(** The last-message timestamp as the specification words it: computed from
    the messages, the most recent one's timestamp, and undefined for a
    conversation without messages. *)
Definition spec_last_message_timestamp (c : chat) : option Z :=
  match messages c with
  | [] => None
  | m :: ms => Some (foldr Z.max (timestamp m) (timestamp <$> ms))
  end.

(** Descending order of that timestamp, the undefined one last. *)
Definition spec_recency_ge (a b : option Z) : Prop :=
  match a, b with
  | _, None => True
  | None, Some _ => False
  | Some x, Some y => y ≤ x
  end.

Definition spec_index_ordered (out : list chat) : Prop :=
  StronglySorted
    (λ c1 c2, spec_recency_ge (spec_last_message_timestamp c1)
                              (spec_last_message_timestamp c2)) out.

(** The text of a message, empty when the field holds no string. *)
Definition text_of (m : gmap string value) : string :=
  match m !! "text" with
  | Some (VStr s) => s
  | _ => ""
  end.

(** A message whose [text] key is present and holds [null] or a string. *)
Definition has_text_field (m : gmap string value) : Prop :=
  m !! "text" = Some VNone ∨ ∃ s, m !! "text" = Some (VStr s).

(** The keys the message loop reads by subscript. *)
Definition message_keys : list string :=
  ["date"; "sender"; "is_from_me"; "text"; "attachment_path"].

(** The local date and time of a message: the conversion of the integer
    that its record holds under [date]. *)
Definition local_datetime (fromtimestamp : Z → result HtmlCreator.datetime)
    (m : gmap string value) : result HtmlCreator.datetime :=
  match m !! "date" with
  | Some (VInt n) => fromtimestamp n
  | Some (VBool b) => fromtimestamp (Z.b2z b)
  | Some _ => Raise TypeError
  | None => Raise (KeyError "date")
  end.

(** The calendar date of a message in the local time zone. *)
Definition local_date (fromtimestamp : Z → result HtmlCreator.datetime)
    (m : gmap string value) : option (Z * Z * Z) :=
  match local_datetime fromtimestamp m with
  | Ok d => Some (HtmlCreator.calendar_date d)
  | Raise _ => None
  end.

(** A value that Python can hash: any value but a list or a dictionary. *)
Definition hashable (v : value) : bool :=
  match v with
  | VList _ | VDict _ => false
  | _ => true
  end.

(** A value that counts as false, told from the value itself: [null],
    [false], zero, and the empty string, list and dictionary. *)
Definition falsy (v : value) : bool :=
  match v with
  | VNone | VBool false | VInt 0 | VStr "" | VList [] | VDict [] => true
  | _ => false
  end.

(** An attachment value the loop can render: a string, or anything false. *)
Definition attachment_ok (v : value) : bool :=
  match v with
  | VStr _ => true
  | _ => falsy v
  end.

(** A message record the loop renders: the five keys are present, the date
    is an integer that the platform converts, the sender is hashable, and the
    attachment is a string unless it is false. *)
Definition renderable (fromtimestamp : Z → result HtmlCreator.datetime)
    (m : gmap string value) : Prop :=
  (∀ k, k ∈ message_keys → is_Some (m !! k)) ∧
  (∃ d, local_datetime fromtimestamp m = Ok d) ∧
  (∀ v, m !! "sender" = Some v → hashable v = true) ∧
  (∀ v, m !! "attachment_path" = Some v → attachment_ok v = true).

(** The fields of the local date and time are in the ranges of [datetime]. *)
Definition validly_dated (fromtimestamp : Z → result HtmlCreator.datetime)
    (m : gmap string value) : Prop :=
  ∀ d, local_datetime fromtimestamp m = Ok d → HtmlCreator.valid_datetime d.

(** The fragments of a message begin a date bucket: a divider comes first. *)
Definition starts_bucket (chunk : list HtmlCreator.fragment) : bool :=
  match chunk with
  | HtmlCreator.DateDivider _ :: _ => true
  | _ => false
  end.

Definition is_text_bubble (f : HtmlCreator.fragment) : bool :=
  match f with
  | HtmlCreator.TextBubble _ => true
  | _ => false
  end.

Definition is_attachment_element (f : HtmlCreator.fragment) : bool :=
  match f with
  | HtmlCreator.ImageTag _ | HtmlCreator.AttachmentLink _ _ => true
  | _ => false
  end.

(** The fragments of one message, as the loop composes them: at most one
    divider, the opening of the message, at most one text bubble, at most one
    attachment element, the closing. *)
Definition message_shape (chunk : list HtmlCreator.fragment) : Prop :=
  ∃ divider cls name time bubble element,
    chunk = divider ++ HtmlCreator.MessageOpen cls name time :: bubble ++
            element ++ [HtmlCreator.MessageClose] ∧
    (divider = [] ∨ ∃ s, divider = [HtmlCreator.DateDivider s]) ∧
    (cls = "message-outgoing" ∧ name = "Me" ∨ cls = "message-incoming") ∧
    (bubble = [] ∨ ∃ t, bubble = [HtmlCreator.TextBubble t]) ∧
    (element = [] ∨ (∃ p, element = [HtmlCreator.ImageTag p]) ∨
     ∃ p n, element = [HtmlCreator.AttachmentLink p n]).

(** The date strings of the dividers of a page, in page order. *)
Definition dividers (chunks : list (list HtmlCreator.fragment)) : list string :=
  omap (λ f, match f with HtmlCreator.DateDivider s => Some s | _ => None end)
       (concat chunks).

(** ** Sample documents *)

Module Sample.

Definition msg (sender : value) (date : Z) (is_from_me : bool)
    (text attachment_path : value) : gmap string value :=
  {[ "sender" := sender; "date" := VInt date; "is_from_me" := VBool is_from_me;
     "text" := text; "attachment_path" := attachment_path ]}.

Definition hello : gmap string value := msg (VStr "1") 86400 false (VStr "hello") VNone.
Definition photo : gmap string value := msg (VStr "2") 5 true (VStr "") (VStr "a.JPG").
Definition paper : gmap string value := msg (VStr "9") 86400 false VNone (VStr "doc.pdf").

Definition group : chat :=
  {| chat_id := "1"; display_name := None;
     participants := [("1", "Alice"); ("2", "Bob"); ("3", "Carol"); ("4", "Dave")];
     messages := [hello; photo; paper];
     last_message_date := 86400 |}.

(** Three documents whose [last_message_date] disagrees with their messages. *)
Definition stale : chat :=
  {| chat_id := "a"; display_name := Some "A"; participants := [];
     messages := [msg (VStr "1") 500 false (VStr "x") VNone];
     last_message_date := 100 |}.
Definition fresh : chat :=
  {| chat_id := "b"; display_name := Some "B"; participants := [];
     messages := [msg (VStr "1") 300 false (VStr "y") VNone];
     last_message_date := 200 |}.
Definition silent : chat :=
  {| chat_id := "e"; display_name := Some "E"; participants := [];
     messages := [];
     last_message_date := 1000 |}.

(** A group in which two participants are called "Me". *)
Definition doubles : chat :=
  {| chat_id := "d"; display_name := None;
     participants := [("0", "Me"); ("1", "Me"); ("2", "Ann"); ("3", "Ben"); ("4", "Cy")];
     messages := [];
     last_message_date := 0 |}.

(** A chat whose newest text is sixty characters long. *)
Definition sixty : string :=
  "0123456789012345678901234567890123456789012345678901234567890123456789"%string.

Definition wordy : chat :=
  {| chat_id := "w"; display_name := None; participants := [("1", "Alice")];
     messages := [msg (VStr "1") 10 false (VStr "old") VNone;
                  msg (VStr "1") 30 false VNone (VStr "a.png");
                  msg (VStr "1") 20 false (VStr sixty) VNone];
     last_message_date := 30 |}.

(** Records from which one key is missing. *)
Definition no_text : gmap string value :=
  {[ "sender" := VStr "1"; "date" := VInt 86400; "is_from_me" := VBool false;
     "attachment_path" := VNone ]}.
Definition no_attachment : gmap string value :=
  {[ "sender" := VStr "1"; "date" := VInt 86400; "is_from_me" := VBool false;
     "text" := VStr "hello" ]}.
Definition no_sender : gmap string value :=
  {[ "date" := VInt 86400; "is_from_me" := VBool true;
     "text" := VStr "hello"; "attachment_path" := VNone ]}.

(** An outgoing message with nothing in its optional fields, and one whose
    sender is an empty array. *)
Definition bare : gmap string value := msg VNone 86400 true VNone (VStr "").
Definition unsigned : gmap string value :=
  msg (VList []) 86400 true (VStr "hello") VNone.

(** Short records: a date and a text, and a record without a date. *)
Definition note (date : Z) (text : string) : gmap string value :=
  {[ "date" := VInt date; "text" := VStr text ]}.
Definition no_date : gmap string value := {[ "text" := VStr "x" ]}.

Definition notes : chat :=
  {| chat_id := "n"; display_name := Some "Notes"; participants := [];
     messages := [note 20 "second"; note 10 "first"];
     last_message_date := 20 |}.

(** An incoming message from participant "2", and one whose attachment is a
    number. *)
Definition from_bob : gmap string value := msg (VStr "2") 86400 false (VStr "hi") VNone.
Definition numbered : gmap string value := msg (VStr "2") 86400 false VNone (VInt 7).

End Sample.

(** * Properties *)

(** ** Facts about the result monad *)

(** Membership in a list that is written out. *)
Ltac elem_of_literal :=
  repeat first [apply list_elem_of_here | apply list_elem_of_further].

(** A property of every element of a list that is written out. *)
Ltac forall_each tac :=
  repeat (apply Forall_cons_2; [tac|]); apply Forall_nil_2.

Lemma bind_Ok {A B : Type} (r : result A) (k : A → result B) (b : B) :
  r ≫= k = Ok b ↔ ∃ a, r = Ok a ∧ k a = Ok b.
Proof.
  destruct r as [a|e]; simpl.
  - split; [eauto | intros (a' & [= <-] & ?); done].
  - split; [done | intros (a' & [=] & _)].
Qed.

Lemma mapM_integer_keys {A : Type} (key : A → result value) (k : A → Z)
    (l : list A) :
  Forall (integer_key key k) l →
  ∃ vs, mapM key l = Ok vs ∧ mapM as_int vs = Ok (k <$> l).
Proof.
  induction 1 as [|a l (v & Ha & Hv) _ (vs & IH1 & IH2)]; [by exists []|].
  exists (v :: vs). cbn. rewrite Ha. cbn. rewrite IH1. cbn.
  rewrite Hv. cbn. by rewrite IH2.
Qed.

(** ** Facts about the stable sort *)

Lemma StronglySorted_impl {B : Type} (R1 R2 : relation B) (l : list B) :
  (∀ x y, R1 x y → R2 x y) → StronglySorted R1 l → StronglySorted R2 l.
Proof.
  intros HR. induction 1 as [|x l _ IH Hx]; constructor; [done|].
  eapply Forall_impl; [exact Hx|]. intros y. apply HR.
Qed.

(** A sorted list is determined by the order of the elements of each key: two
    stable sorts of one list return the same list. *)
Lemma stable_sorted_unique {B : Type} (f : B → Z) (l1 l2 : list B) :
  StronglySorted (λ x y, f x ≤ f y) l1 →
  StronglySorted (λ x y, f x ≤ f y) l2 →
  (∀ t, filter (λ y, f y = t) l1 = filter (λ y, f y = t) l2) →
  l1 = l2.
Proof.
  intros Hl1. revert l2. induction Hl1 as [|x l1 Hl1 IH Hx]; intros l2 Hl2 Heq.
  - destruct l2 as [|y l2]; [done|].
    specialize (Heq (f y)). by rewrite filter_cons_True in Heq.
  - destruct Hl2 as [|y l2 Hl2 Hy].
    { specialize (Heq (f x)). by rewrite filter_cons_True in Heq. }
    assert (x = y) as <-.
    { destruct (decide (f x = f y)) as [Hxy|Hxy].
      - specialize (Heq (f x)).
        rewrite !filter_cons_True in Heq by done. congruence.
      - exfalso.
        assert (f y ≤ f x).
        { specialize (Heq (f x)).
          rewrite filter_cons_True, filter_cons_False in Heq by congruence.
          assert (x ∈ filter (λ z, f z = f x) l2) as Hin
            by (rewrite <-Heq; apply list_elem_of_here).
          apply list_elem_of_filter in Hin as [_ Hin].
          rewrite Forall_forall in Hy. by apply Hy. }
        assert (f x ≤ f y).
        { specialize (Heq (f y)).
          rewrite filter_cons_False, filter_cons_True in Heq by done.
          assert (y ∈ filter (λ z, f z = f y) l1) as Hin
            by (rewrite Heq; apply list_elem_of_here).
          apply list_elem_of_filter in Hin as [_ Hin].
          rewrite Forall_forall in Hx. by apply Hx. }
        lia. }
    f_equal. apply IH; [done|]. intros t. specialize (Heq t).
    rewrite !filter_cons in Heq. case_decide; congruence.
Qed.

Section SortFacts.
Context {A : Type}.
Implicit Types (x : Z * A) (l : list (Z * A)).

Lemma insert_keyed_Permutation x l : insert_keyed x l ≡ₚ x :: l.
Proof.
  induction l as [|y l IH]; simpl; [done|].
  case_decide; [|done].
  rewrite IH. apply perm_swap.
Qed.

Lemma sort_keyed_Permutation l : sort_keyed l ≡ₚ l.
Proof.
  induction l as [|x l IH]; simpl; [done|].
  by rewrite insert_keyed_Permutation, IH.
Qed.

Lemma insert_keyed_sorted x l :
  StronglySorted key_le l → StronglySorted key_le (insert_keyed x l).
Proof.
  induction 1 as [|y l Hl IH Hy]; simpl.
  - repeat constructor.
  - case_decide as Hlt.
    + constructor; [done|].
      rewrite insert_keyed_Permutation. constructor; [|done].
      unfold key_le. lia.
    + constructor; [by constructor|].
      constructor; [unfold key_le; lia|].
      eapply Forall_impl; [exact Hy|]. unfold key_le. intros z ?. lia.
Qed.

Lemma sort_keyed_sorted l : StronglySorted key_le (sort_keyed l).
Proof.
  induction l as [|x l IH]; simpl; [constructor|].
  by apply insert_keyed_sorted.
Qed.

(** Stability: the elements of any one key come out in the order they went in. *)
Lemma insert_keyed_stable (t : Z) x l :
  filter (λ y, y.1 = t) (insert_keyed x l) = filter (λ y, y.1 = t) (x :: l).
Proof.
  induction l as [|y l IH]; simpl; [done|].
  case_decide as Hlt; [|done].
  rewrite !filter_cons in *.
  repeat case_decide; simplify_eq; try lia; by rewrite ?IH.
Qed.

Lemma sort_keyed_stable (t : Z) l :
  filter (λ y, y.1 = t) (sort_keyed l) = filter (λ y, y.1 = t) l.
Proof.
  induction l as [|x l IH]; simpl; [done|].
  rewrite insert_keyed_stable, !filter_cons, IH. done.
Qed.

Lemma sort_keyed_unique l out :
  StronglySorted key_le out →
  (∀ t, filter (λ y, y.1 = t) out = filter (λ y, y.1 = t) l) →
  out = sort_keyed l.
Proof.
  intros Hsorted Hstable.
  apply (stable_sorted_unique fst); [done|apply sort_keyed_sorted|].
  intros t. by rewrite Hstable, sort_keyed_stable.
Qed.

Lemma StronglySorted_reverse (R : relation (Z * A)) l :
  StronglySorted R l → StronglySorted (flip R) (reverse l).
Proof.
  induction 1 as [|y l Hl IH Hy]; [constructor|].
  rewrite reverse_cons. apply StronglySorted_app. split_and!.
  - intros x1 x2 Hx1 ->%list_elem_of_singleton.
    rewrite elem_of_reverse in Hx1.
    rewrite Forall_forall in Hy. by apply Hy.
  - done.
  - repeat constructor.
Qed.

Lemma sort_keyed_reverse_Permutation b l : sort_keyed_reverse b l ≡ₚ l.
Proof.
  destruct b; simpl; [|apply sort_keyed_Permutation].
  by rewrite reverse_Permutation, sort_keyed_Permutation, reverse_Permutation.
Qed.

Lemma sort_keyed_reverse_stable (t : Z) b l :
  filter (λ y, y.1 = t) (sort_keyed_reverse b l) = filter (λ y, y.1 = t) l.
Proof.
  destruct b; simpl; [|apply sort_keyed_stable].
  by rewrite filter_reverse, sort_keyed_stable, filter_reverse, reverse_involutive.
Qed.

Lemma sort_keyed_reverse_sorted (b : bool) l :
  StronglySorted (if b return relation (Z * A) then flip key_le else key_le)
    (sort_keyed_reverse b l).
Proof.
  destruct b; simpl; [|apply sort_keyed_sorted].
  apply StronglySorted_reverse, sort_keyed_sorted.
Qed.

(** [list_sort] with a key that does not raise on the elements of the list:
    [k] is the key as a plain function. *)
Lemma list_sort_Ok (key : A → result value) (k : A → Z) (b : bool) (l : list A) :
  Forall (integer_key key k) l →
  ∃ out, list_sort key b l = Ok out ∧
    out ≡ₚ l ∧
    StronglySorted (λ a1 a2, if b then k a2 ≤ k a1 else k a1 ≤ k a2) out ∧
    ∀ t, filter (λ a, k a = t) out = filter (λ a, k a = t) l.
Proof.
  intros Hkey. unfold list_sort.
  destruct (mapM_integer_keys key k l Hkey) as (vs & -> & Hints). cbn.
  case_decide as Hlen.
  { exists l. split_and!; [done|done| |done].
    destruct l as [|a [|a' l]]; simpl in Hlen; [| |lia]; repeat constructor. }
  rewrite Hints. cbn. clear vs Hints Hlen.
  eexists; split; [done|].
  assert (zip (k <$> l) l = (λ a, (k a, a)) <$> l) as ->.
  { clear Hkey. induction l; simpl; [done|]. by f_equal. }
  set (dec := λ a : A, (k a, a)).
  assert (Hdec : Forall (λ x, x = dec x.2) (sort_keyed_reverse b (dec <$> l))).
  { rewrite sort_keyed_reverse_Permutation. apply Forall_fmap, Forall_true. done. }
  split_and!.
  - rewrite sort_keyed_reverse_Permutation, <-list_fmap_compose.
    by rewrite list_fmap_id.
  - assert (Hsnd : ∀ (R : relation Z) (l' : list (Z * A)),
              Forall (λ x, x = dec x.2) l' →
              StronglySorted (λ x y, R x.1 y.1) l' →
              StronglySorted (λ a1 a2, R (k a1) (k a2)) l'.*2).
    { clear. intros R l' Hl'. induction 1 as [|x l' _ IH Hx]; [constructor|].
      apply Forall_cons in Hl' as [Hx' Hl']. rewrite fmap_cons.
      constructor; [by apply IH|].
      rewrite Forall_fmap. rewrite Forall_forall in Hx, Hl' |- *.
      intros y Hy. simpl. specialize (Hx y Hy).
      rewrite Hx', (Hl' y Hy) in Hx. done. }
    pose proof (sort_keyed_reverse_sorted b (dec <$> l)) as Hsorted.
    destruct b.
    + by apply (Hsnd (λ z1 z2, z2 ≤ z1)).
    + by apply (Hsnd (λ z1 z2, z1 ≤ z2)).
  - intros t.
    pose proof (sort_keyed_reverse_stable t b (dec <$> l)) as Hst.
    apply (f_equal (fmap snd)) in Hst.
    assert (Hcomm : ∀ l' : list (Z * A), Forall (λ x, x = dec x.2) l' →
              (filter (λ y, y.1 = t) l').*2 = filter (λ a, k a = t) l'.*2).
    { clear. induction 1 as [|x l' Hx _ IH]; [done|].
      assert (x.1 = k x.2) as Hx1 by (by rewrite Hx at 1).
      rewrite fmap_cons, !filter_cons, <-Hx1.
      case_decide; [rewrite fmap_cons; f_equal|]; exact IH. }
    rewrite !Hcomm in Hst; [|apply Forall_fmap, Forall_true; done|done].
    rewrite Hst, <-list_fmap_compose. by rewrite list_fmap_id.
Qed.

(** The answer of [list_sort] is the only arrangement of the list that is
    sorted and stable. *)
Lemma list_sort_determined (key : A → result value) (k : A → Z) (b : bool)
    (l out : list A) :
  Forall (integer_key key k) l →
  StronglySorted (λ a1 a2, if b then k a2 ≤ k a1 else k a1 ≤ k a2) out →
  (∀ t, filter (λ a, k a = t) out = filter (λ a, k a = t) l) →
  list_sort key b l = Ok out.
Proof.
  intros Hkey Hsorted Hstable.
  destruct (list_sort_Ok key k b l Hkey) as (out' & -> & _ & Hsorted' & Hstable').
  f_equal. destruct b.
  - apply (stable_sorted_unique (λ a, - k a)).
    + eapply StronglySorted_impl; [|exact Hsorted']. simpl. intros; lia.
    + eapply StronglySorted_impl; [|exact Hsorted]. simpl. intros; lia.
    + intros t. specialize (Hstable (- t)). specialize (Hstable' (- t)).
      rewrite (list_filter_iff (λ a, - k a = t) (λ a, k a = - t) out')
        by (intros; lia).
      rewrite (list_filter_iff (λ a, - k a = t) (λ a, k a = - t) out)
        by (intros; lia).
      congruence.
  - apply (stable_sorted_unique k); [done..|]. intros t. by rewrite Hstable, Hstable'.
Qed.

End SortFacts.

(** ** Theorems about utils.py *)

(** C1: the timestamp normalizer is the piecewise function: above the
    threshold [978307200 * 10^6] it returns [floor(raw / 10^9) + 978307200],
    at or below the threshold it returns [raw + 978307200]. *)
Theorem convert_date_piecewise (raw : Z) :
  (raw > 978307200 * 1000000 →
     Utils.convert_date raw = raw / 1000000000 + 978307200) ∧
  (raw ≤ 978307200 * 1000000 →
     Utils.convert_date raw = raw + 978307200).
Proof.
  unfold Utils.convert_date, Utils.epoch.
  change (1000 ^ 2) with 1000000. change (1000 ^ 3) with 1000000000.
  split; intros Hraw; case_decide; lia.
Qed.

(** One value on each side of the threshold. *)
Lemma convert_date_piecewise_witness :
  Utils.convert_date 1000000000000000000 = 1978307200 ∧
  Utils.convert_date 86400 = 978393600.
Proof.
  split.
  - apply (proj1 (convert_date_piecewise 1000000000000000000)). lia.
  - apply (proj2 (convert_date_piecewise 86400)). lia.
Defined.

(** C2 as stated fails at the threshold: the largest legacy value converts to
    a later instant than the smallest modern value. *)
Lemma convert_date_not_monotone :
  978307200000000 ≤ 978307200000001 ∧
  ¬ (Utils.convert_date 978307200000000 ≤ Utils.convert_date 978307200000001).
Proof. split; [lia|]. vm_compute. intros H. by apply H. Qed.

(** C2, amended: conversion is defined on every integer, and for
    [r1 <= r2] the order is kept exactly when both values are legacy, or both
    are modern, or [r1 <= floor(r2 / 10^9)]; in particular it is monotone
    within each encoding. *)
Theorem convert_date_monotone_iff (r1 r2 : Z) :
  r1 ≤ r2 →
  (Utils.convert_date r1 ≤ Utils.convert_date r2 ↔
   r2 ≤ 978307200 * 1000000 ∨ 978307200 * 1000000 < r1 ∨ r1 ≤ r2 / 1000000000).
Proof.
  intros Hle. unfold Utils.convert_date, Utils.epoch.
  change (1000 ^ 2) with 1000000. change (1000 ^ 3) with 1000000000.
  pose proof (Z.div_le_mono r1 r2 1000000000 ltac:(lia) Hle).
  repeat case_decide; lia.
Qed.

Lemma convert_date_monotone_iff_witness :
  Utils.convert_date 978307200000001 ≤ Utils.convert_date 2000000000000000.
Proof.
  apply (convert_date_monotone_iff 978307200000001 2000000000000000); lia.
Defined.

(** ** Theorems about the two sorts *)

(** The key of the message sorts, and the number the loop converts, are the
    integer that the record holds under [date]. *)
Lemma timestamp_of_Ok (m : gmap string value) (t : Z) :
  timestamp_of m = Ok t ↔ message_date m = Some t.
Proof.
  unfold timestamp_of, date_key, getitem, message_date.
  destruct (m !! "date") as [[|b|n|s|l|d]|]; cbn; split; congruence.
Qed.

Lemma date_key_timestamp (m : gmap string value) :
  has_timestamp m → integer_key date_key timestamp m.
Proof.
  intros [t Ht]. unfold integer_key, timestamp. rewrite Ht. simpl.
  apply timestamp_of_Ok in Ht. unfold timestamp_of in Ht.
  by apply bind_Ok in Ht.
Qed.

Lemma local_datetime_timestamp_of
    (fromtimestamp : Z → result HtmlCreator.datetime) (m : gmap string value) :
  local_datetime fromtimestamp m = (t ← timestamp_of m; fromtimestamp t).
Proof.
  unfold local_datetime, timestamp_of, date_key, getitem.
  by destruct (m !! "date") as [[|b|n|s|l|d]|].
Qed.



(** C4 as stated fails: the index follows the [last_message_date] field of
    the documents, so a chat without messages whose field is the largest comes
    first, ahead of the chats that have messages. *)
Lemma index_not_ordered_by_messages :
  HtmlCreator.sort_chats [Sample.stale; Sample.fresh; Sample.silent]
    = Ok [Sample.silent; Sample.fresh; Sample.stale] ∧
  ¬ spec_index_ordered [Sample.silent; Sample.fresh; Sample.stale].
Proof.
  split; [vm_compute; reflexivity|].
  intros Hsorted. apply StronglySorted_inv in Hsorted as [_ Hhd].
  apply Forall_cons in Hhd as [Hhd _]. exact Hhd.
Qed.

(** C4, amended: the index lists the chats by the [last_message_date] field
    of each document, read from the input and not computed from the messages,
    in descending order; chats with equal fields keep their input order, and a
    chat without messages is placed by its field like any other. *)
Theorem index_sorted_by_field (chats : list chat) :
  ∃ out, HtmlCreator.sort_chats chats = Ok out ∧
    out ≡ₚ chats ∧
    StronglySorted (λ c1 c2, last_message_date c2 ≤ last_message_date c1) out ∧
    ∀ t, filter (λ c, last_message_date c = t) out =
         filter (λ c, last_message_date c = t) chats.
Proof.
  apply (list_sort_Ok (λ c, Ok (VInt (last_message_date c))) last_message_date true).
  apply Forall_true. intros c. by eexists.
Qed.

(** Fields 300, 100 and 200, and 0 on a chat without messages: the index
    shows 300, 200, 100, 0. *)
Example sort_chats_by_field :
  let mk (id : string) (t : Z) (ms : list (gmap string value)) :=
    {| chat_id := id; display_name := None; participants := [];
       messages := ms; last_message_date := t |} in
  match HtmlCreator.sort_chats
          [mk "a" 300 [Sample.hello]; mk "b" 100 [Sample.hello];
           mk "c" 200 [Sample.hello]; mk "d" 0 []] with
  | Ok out => chat_id <$> out = ["a"; "c"; "b"; "d"]
  | Raise _ => False
  end.
Proof. vm_compute. reflexivity. Qed.

(** ** Theorems about the conversation name *)

Lemma list_remove_first (x : string) (l : list string) :
  x ∈ l → ∃ l1 l2, l = l1 ++ (x :: l2) ∧ (x ∉ l1) ∧ HtmlCreator.list_remove x l = l1 ++ l2.
Proof.
  induction l as [|y l IH]; intros Hin; [by apply elem_of_nil in Hin|].
  simpl. case_decide as Hy.
  - subst y. exists [], l. split_and!; [done| |done]. apply not_elem_of_nil.
  - apply elem_of_cons in Hin as [->|Hin]; [done|].
    destruct (IH Hin) as (l1 & l2 & -> & Hl1 & ->).
    exists (y :: l1), l2. split_and!; [done| |done].
    rewrite not_elem_of_cons. split; [congruence|done].
Qed.

(** C5 as stated fails on its own example: the code puts no space between
    the third name and the dots. *)
Lemma chat_name_group_no_space :
  HtmlCreator.chat_name Sample.group = "Alice, Bob, Carol... (4 people)" ∧
  HtmlCreator.chat_name Sample.group ≠ "Alice, Bob, Carol ... (4 people)".
Proof. split; [vm_compute; reflexivity|]. vm_compute. intros [=]. Qed.

(** C5, amended: a non-empty display-name override is the name, verbatim;
    otherwise, with the first "Me" taken out of the participant display
    names, the name is "Empty Chat" for no name left, the name itself for
    one, the names joined with ", " for two or three, and for more than
    three the first three joined with ", " followed by "... (" (no space
    before the dots), the number of names left, and " people)". *)
Theorem chat_name_cases (c : chat) :
  (∀ s, display_name c = Some s → s ≠ "" → HtmlCreator.chat_name c = s) ∧
  (display_name c = None ∨ display_name c = Some "" →
   ∀ names,
     names = (if decide ("Me" ∈ (participants c).*2)
              then HtmlCreator.list_remove "Me" (participants c).*2
              else (participants c).*2) →
     (names = [] → HtmlCreator.chat_name c = "Empty Chat") ∧
     (∀ p, names = [p] → HtmlCreator.chat_name c = p) ∧
     ((2 ≤ length names ≤ 3)%nat → HtmlCreator.chat_name c = join ", " names) ∧
     ((3 < length names)%nat →
        HtmlCreator.chat_name c =
          join ", " (take 3 names) +:+ "... (" +:+ pretty (length names) +:+ " people)")).
Proof.
  split.
  - intros s Hs Hne. unfold HtmlCreator.chat_name. rewrite Hs.
    destruct (String.eqb_spec s ""); done.
  - intros Hnone names Hnames.
    assert (HtmlCreator.chat_name c = HtmlCreator.format_participants names) as ->.
    { unfold HtmlCreator.chat_name, HtmlCreator._get_chat_name. rewrite <-Hnames.
      by destruct Hnone as [-> | ->]. }
    unfold HtmlCreator.format_participants. split_and!.
    + by intros ->.
    + by intros p ->.
    + intros [H2 H3]. clear Hnames.
      destruct names as [|p1 [|p2 names]]; simpl in H2, H3; try lia.
      by rewrite decide_False by (simpl; lia).
    + intros H3. clear Hnames.
      destruct names as [|p1 [|p2 names]]; simpl in H3; try lia.
      by rewrite decide_True by (simpl; lia).
Qed.

Lemma chat_name_cases_witness :
  HtmlCreator.chat_name Sample.group = "Alice, Bob, Carol... (4 people)".
Proof.
  refine (proj2 (proj2 (proj2
    (proj2 (chat_name_cases Sample.group) _ ["Alice"; "Bob"; "Carol"; "Dave"] _))) _).
  - left. reflexivity.
  - vm_compute. reflexivity.
  - simpl. lia.
Defined.

(** C10: when "Me" is among the participant display names, exactly its first
    occurrence is taken out before the name is derived: later occurrences
    stay in the list, and the count of the group form is the number of names
    left, one less than the size of the participant map. *)
Theorem get_chat_name_removes_one_Me (c : chat) :
  "Me" ∈ (participants c).*2 →
  ∃ l1 l2,
    (participants c).*2 = l1 ++ ("Me" :: l2) ∧ ("Me" ∉ l1) ∧
    HtmlCreator._get_chat_name c = HtmlCreator.format_participants (l1 ++ l2) ∧
    length (l1 ++ l2) = (length (participants c) - 1)%nat ∧
    ((3 < length (l1 ++ l2))%nat →
       HtmlCreator._get_chat_name c =
         join ", " (take 3 (l1 ++ l2)) +:+ "... (" +:+
         pretty (length (participants c) - 1)%nat +:+ " people)").
Proof.
  intros Hin. destruct (list_remove_first _ _ Hin) as (l1 & l2 & Hvs & Hl1 & Hrm).
  exists l1, l2.
  assert (Hlen : length (l1 ++ l2) = (length (participants c) - 1)%nat).
  { rewrite <-(length_fmap snd (participants c)), Hvs, !length_app. simpl. lia. }
  assert (Hname : HtmlCreator._get_chat_name c = HtmlCreator.format_participants (l1 ++ l2)).
  { unfold HtmlCreator._get_chat_name. rewrite decide_True by done. by rewrite Hrm. }
  split_and!; [done..|].
  intros H3. rewrite Hname, <-Hlen. unfold HtmlCreator.format_participants.
  destruct (l1 ++ l2) as [|p1 [|p2 names]]; simpl in H3; try lia.
  by rewrite decide_True by (simpl; lia).
Qed.

Lemma get_chat_name_removes_one_Me_witness :
  ∃ l1 l2,
    ["Me"; "Me"; "Ann"; "Ben"; "Cy"] = l1 ++ ("Me" :: l2) ∧ ("Me" ∉ l1) ∧
    HtmlCreator._get_chat_name Sample.doubles = HtmlCreator.format_participants (l1 ++ l2) ∧
    length (l1 ++ l2) = 4%nat ∧
    ((3 < length (l1 ++ l2))%nat →
       HtmlCreator._get_chat_name Sample.doubles =
         join ", " (take 3 (l1 ++ l2)) +:+ "... (" +:+ "4" +:+ " people)").
Proof.
  apply (get_chat_name_removes_one_Me Sample.doubles).
  simpl. apply elem_of_cons. by left.
Defined.

Example get_chat_name_doubles :
  HtmlCreator._get_chat_name Sample.doubles = "Me, Ann, Ben... (4 people)".
Proof. vm_compute. reflexivity. Qed.

(** ** Theorems about the archive format *)

Lemma str_drop_app_length (s1 s2 : string) :
  str_drop (String.length s1) (s1 +:+ s2) = s2.
Proof. induction s1 as [|c s1 IH]; simpl; [by destruct s2|done]. Qed.

Lemma str_drop_add (n1 n2 : nat) (s : string) :
  str_drop (n1 + n2) s = str_drop n2 (str_drop n1 s).
Proof.
  revert s. induction n1 as [|n1 IH]; intros s; simpl; [done|].
  destruct s; [by destruct n2|]. apply IH.
Qed.

Lemma rfind_from_app (c : ascii) (i : nat) (s1 s2 : string) :
  rfind_from c i (s1 +:+ s2) =
  match rfind_from c (i + String.length s1) s2 with
  | Some j => Some j
  | None => rfind_from c i s1
  end.
Proof.
  revert i. induction s1 as [|c1 s1 IH]; intros i.
  - change ("" +:+ s2) with s2. simpl. rewrite Nat.add_0_r.
    by destruct (rfind_from c i s2).
  - change (String c1 s1 +:+ s2) with (String c1 (s1 +:+ s2)). simpl.
    rewrite IH, <-Nat.add_succ_comm.
    by destruct (rfind_from c (S i + String.length s1) s2).
Qed.

Lemma length_append (s1 s2 : string) :
  String.length (s1 +:+ s2) = (String.length s1 + String.length s2)%nat.
Proof.
  induction s1 as [|c s1 IH]; [done|].
  change (String c s1 +:+ s2) with (String c (s1 +:+ s2)). simpl. by f_equal.
Qed.

(** Whatever precedes it, a name that ends in [.tar.gz] has the suffix [.gz]. *)
Lemma suffix_tar_gz (stem : string) : Utils.suffix (stem +:+ ".tar.gz") = ".gz".
Proof.
  unfold Utils.suffix, rfind. rewrite rfind_from_app. simpl rfind_from.
  rewrite length_append. simpl String.length.
  assert ((S (S (S (S (S (String.length stem))))) <? String.length stem + 7)%nat
          = true) as -> by (apply Nat.ltb_lt; lia).
  simpl andb. cbv iota.
  replace (S (S (S (S (String.length stem))))) with (String.length stem + 4)%nat
    by lia.
  by rewrite str_drop_add, str_drop_app_length.
Qed.

Lemma get_archive_format_any_tar_gz (stem : string) :
  Utils.get_archive_format (stem +:+ ".tar.gz") =
  Raise (ValueError (Utils.unsupported_message ".gz")).
Proof. unfold Utils.get_archive_format. by rewrite suffix_tar_gz. Qed.

(** C9: on the file name [backup.tar.gz], whose extension [.tar.gz] is a key
    of the table of supported formats, the code raises the unsupported-format
    error for the extension [.gz] where [gztar] is the answer. *)
Theorem get_archive_format_tar_gz_raises :
  Utils.get_archive_format "backup.tar.gz" =
  Raise (ValueError
    "Unsupported archive format: .gz. Supported formats are: .zip, .tar, .tgz, .tar.gz, .tbz, .tar.bz2, .txz, .tar.xz") ∧
  Utils.formats_lookup ".tar.gz" Utils.formats = Some "gztar".
Proof. split; vm_compute; reflexivity. Qed.

Example get_archive_format_others :
  Utils.get_archive_format "backup.tar.bz2" =
    Raise (ValueError (Utils.unsupported_message ".bz2")) ∧
  Utils.get_archive_format "backup.tar.xz" =
    Raise (ValueError (Utils.unsupported_message ".xz")) ∧
  Utils.get_archive_format "backup.TGZ" = Ok "gztar" ∧
  Utils.get_archive_format "Backup.Zip" = Ok "zip" ∧
  Utils.get_archive_format "backup.tar" = Ok "tar" ∧
  Utils.get_archive_format "backup.tbz" = Ok "bztar" ∧
  Utils.get_archive_format "backup.txz" = Ok "xztar" ∧
  Utils.get_archive_format "backup.rar" =
    Raise (ValueError (Utils.unsupported_message ".rar")).
Proof. repeat split; vm_compute; reflexivity. Qed.

(** ** Theorems about the last-message preview *)


Lemma length_str_take (n : nat) (s : string) :
  (n ≤ String.length s)%nat → String.length (str_take n s) = n.
Proof.
  unfold str_take. revert s. induction n as [|n IH]; intros [|c s] Hn;
    simpl in *; try done; try lia.
  f_equal. apply IH. lia.
Qed.

Lemma truthy_text (m : gmap string value) :
  has_text_field m →
  ∃ v, m !! "text" = Some v ∧
    (truthy v = false → text_of m = "") ∧
    (truthy v = true → v = VStr (text_of m) ∧ text_of m ≠ "").
Proof.
  unfold text_of. intros [Hm | [s Hm]]; rewrite Hm; eexists; (split; [done|]).
  - split; [done|]. simpl. discriminate.
  - simpl. destruct (String.eqb_spec s ""); simpl; split; done.
Qed.

(** The scan of lines 188 to 194, in terms of the first message with text. *)
Lemma first_text_spec (l : list (gmap string value)) :
  Forall has_text_field l →
  (Forall (λ m, text_of m = "") l ∧ HtmlCreator.first_text l = Ok "") ∨
  (∃ i m, l !! i = Some m ∧ text_of m ≠ "" ∧
     (∀ j m', l !! j = Some m' → (j < i)%nat → text_of m' = "") ∧
     HtmlCreator.first_text l =
       Ok (if decide (50 < String.length (text_of m))%nat
           then str_take 50 (text_of m) +:+ "..." else text_of m)).
Proof.
  induction 1 as [|m l Hm _ IH]; [left; by split|].
  destruct (truthy_text m Hm) as (v & Hv & Hfalse & Htrue).
  simpl. unfold getitem. rewrite Hv. cbn.
  destruct (truthy v) eqn:Htruth.
  - right. destruct (Htrue eq_refl) as [-> Hne].
    exists 0%nat, m. split_and!; [done|done| |].
    + intros j m' _ Hj. lia.
    + by case_decide.
  - destruct IH as [[Hall ->] | (i & m0 & Hi & Hne & Hbefore & ->)].
    + left. split; [|done]. constructor; [by apply Hfalse|done].
    + right. exists (S i), m0. split_and!; [done|done| |done].
      intros [|j] m' Hj Hlt; simpl in Hj.
      * injection Hj as <-. by apply Hfalse.
      * apply (Hbefore j m' Hj). lia.
Qed.


Lemma preview_sorted_unchanged (c : chat) (sorted : list (gmap string value)) :
  Forall has_timestamp (messages c) →
  list_sort date_key false (messages c) = Ok sorted →
  HtmlCreator.last_message_preview (HtmlCreator.with_messages c sorted) =
  HtmlCreator.last_message_preview c.
Proof.
  intros Hts Hsorted.
  assert (Hkey : Forall (integer_key date_key timestamp) (messages c)).
  { eapply Forall_impl; [exact Hts|]. apply date_key_timestamp. }
  destruct (list_sort_Ok date_key timestamp false (messages c) Hkey) as
    (sorted' & Hsort' & Hperm & _ & Hstable).
  assert (sorted' = sorted) as -> by congruence.
  destruct (list_sort_Ok date_key timestamp true (messages c) Hkey) as
    (newest & Hnewest & _ & Hdesc & Hstable').
  assert (Hagain : list_sort date_key true sorted = Ok newest).
  { apply (list_sort_determined date_key timestamp true); [by rewrite Hperm|done|].
    intros t. by rewrite Hstable', Hstable. }
  unfold HtmlCreator.last_message_preview. simpl.
  destruct (messages c) as [|m ms] eqn:Hms.
  - apply Permutation_nil_r in Hperm. by subst sorted.
  - destruct sorted as [|m' sorted]; [by apply Permutation_nil_cons in Hperm|].
    by rewrite Hagain, Hnewest.
Qed.


(** The newest message of [Sample.wordy] has no text; the next one has sixty
    characters, of which the preview keeps fifty. *)
Example preview_wordy :
  HtmlCreator.last_message_preview Sample.wordy =
  Ok "01234567890123456789012345678901234567890123456789...".
Proof. vm_compute. reflexivity. Qed.

Example preview_group : HtmlCreator.last_message_preview Sample.group = Ok "hello".
Proof. vm_compute. reflexivity. Qed.

Example preview_silent : HtmlCreator.last_message_preview Sample.silent = Ok "".
Proof. reflexivity. Qed.

(** A list of one message is not compared, so its preview is found whatever
    its date holds; and a text that is a short list is shown as Python
    writes the list. *)
Example preview_single_message :
  let mk (m : gmap string value) :=
    {| chat_id := "u"; display_name := None; participants := [];
       messages := [m]; last_message_date := 0 |} in
  HtmlCreator.last_message_preview (mk {[ "date" := VNone; "text" := VStr "hi" ]})
    = Ok "hi" ∧
  HtmlCreator.last_message_preview
    (mk {[ "date" := VInt 1; "text" := VList [VStr "a"; VInt 1] ]})
    = Ok "['a', 1]".
Proof. split; vm_compute; reflexivity. Qed.

(** ** Theorems about the message loop *)

Section LoopFacts.
Variable fromtimestamp : Z → result HtmlCreator.datetime.
Implicit Types (m : gmap string value) (ps : list (string * string))
  (cd : option string) (chunk : list HtmlCreator.fragment).

(** Truth in a condition is the negation of [falsy]. *)
Lemma truthy_falsy (v : value) : truthy v = negb (falsy v).
Proof.
  destruct v as [|[]|[]|[]|[]|[]]; done.
Qed.

Lemma attachment_fragments_ok (v : value) :
  attachment_ok v = true →
  ∃ el, HtmlCreator.attachment_fragments v = Ok el ∧
    (truthy v = false → el = []) ∧
    Forall (λ f, is_attachment_element f = true ∧ is_text_bubble f = false) el.
Proof.
  unfold HtmlCreator.attachment_fragments. intros Hok.
  destruct (truthy v) eqn:Htruth; [|by exists []].
  rewrite truthy_falsy in Htruth. apply negb_true_iff in Htruth.
  destruct v as [|b|n|name|l|d]; simpl in Hok, Htruth; try congruence.
  destruct (existsb _ HtmlCreator.image_extensions); eexists; (split; [done|]);
    (split; [done|]); by repeat constructor.
Qed.

Lemma participants_get_Ok ps (v : value) :
  hashable v = true ↔ ∃ name, HtmlCreator.participants_get ps v = Ok name.
Proof.
  unfold HtmlCreator.participants_get.
  destruct v as [|b|n|k|l|d]; simpl; try (split; [by eexists|done]).
  - split; [|done]. intros _. destruct (list_find _ ps) as [[i p]|]; by eexists.
  - split; [done|by intros [? ?]].
  - split; [done|by intros [? ?]].
Qed.

(** What one iteration appends for a record the loop renders. *)
Lemma message_body_renderable ps cd m :
  renderable fromtimestamp m →
  ∃ d vs name vme vt va el,
    local_datetime fromtimestamp m = Ok d ∧
    m !! "sender" = Some vs ∧ HtmlCreator.participants_get ps vs = Ok name ∧
    m !! "is_from_me" = Some vme ∧
    m !! "text" = Some vt ∧ m !! "attachment_path" = Some va ∧
    (truthy va = false → el = []) ∧
    Forall (λ f, is_attachment_element f = true ∧ is_text_bubble f = false) el ∧
    HtmlCreator.message_body fromtimestamp ps cd m =
      Ok (Some (HtmlCreator.strftime_date d),
          (if decide (cd ≠ Some (HtmlCreator.strftime_date d))
           then [HtmlCreator.DateDivider (HtmlCreator.strftime_date d)] else []) ++
          [HtmlCreator.MessageOpen
             (if truthy vme then "message-outgoing" else "message-incoming")
             (if truthy vme then "Me" else format_value name)
             (HtmlCreator.strftime_time d)] ++
          (if truthy vt then [HtmlCreator.TextBubble (format_value vt)] else []) ++
          el ++ [HtmlCreator.MessageClose]).
Proof.
  intros (Hkeys & [d Hd] & Hsender & Hatt).
  assert (Hkey : ∀ k, k ∈ message_keys → ∃ v, m !! k = Some v).
  { intros k Hk. by destruct (Hkeys k Hk) as [v Hv]; exists v. }
  destruct (Hkey "sender") as [vs Hvs]; [elem_of_literal|].
  destruct (Hkey "is_from_me") as [vme Hvme]; [elem_of_literal|].
  destruct (Hkey "text") as [vt Hvt]; [elem_of_literal|].
  destruct (Hkey "attachment_path") as [va Hva]; [elem_of_literal|]. clear Hkey.
  destruct (attachment_fragments_ok va (Hatt va Hva)) as (el & Hel & Hnone & Hall).
  destruct (proj1 (participants_get_Ok ps vs) (Hsender vs Hvs)) as [name Hname].
  exists d, vs, name, vme, vt, va, el. split_and!; try done.
  rewrite local_datetime_timestamp_of in Hd. apply bind_Ok in Hd as (t & Ht & Hd).
  unfold HtmlCreator.message_body, getitem.
  rewrite Ht. cbn. rewrite Hd. cbn.
  rewrite Hvs. cbn. rewrite Hname. cbn.
  rewrite Hvme, Hvt, Hva. cbn. rewrite Hel. cbn.
  destruct (decide (cd ≠ _)) as [Hne | ->%dec_stable]; by destruct (truthy vme).
Qed.

Lemma starts_bucket_body cd (date_str cls name time : string)
    (rest : list HtmlCreator.fragment) :
  starts_bucket
    ((if decide (cd ≠ Some date_str) then [HtmlCreator.DateDivider date_str] else [])
     ++ HtmlCreator.MessageOpen cls name time :: rest) = true ↔ cd ≠ Some date_str.
Proof. case_decide as Hcd; simpl; split; done. Qed.

(** The loop from any [current_date]: it renders every record, one group of
    fragments each; the first group begins with a divider exactly when
    [current_date] is not the date of the first message, and every later
    group exactly when the date string differs from the previous one. *)
Lemma message_loop_buckets ps (ms : list (gmap string value)) cd :
  Forall (renderable fromtimestamp) ms →
  ∃ chunks, HtmlCreator.message_loop fromtimestamp ps cd ms = Ok chunks ∧
    length chunks = length ms ∧
    (∀ m d chunk, ms !! 0%nat = Some m → chunks !! 0%nat = Some chunk →
       local_datetime fromtimestamp m = Ok d →
       (starts_bucket chunk = true ↔ cd ≠ Some (HtmlCreator.strftime_date d))) ∧
    (∀ i m1 m2 d1 d2 chunk,
       ms !! i = Some m1 → ms !! S i = Some m2 → chunks !! S i = Some chunk →
       local_datetime fromtimestamp m1 = Ok d1 →
       local_datetime fromtimestamp m2 = Ok d2 →
       (starts_bucket chunk = true ↔
        HtmlCreator.strftime_date d1 ≠ HtmlCreator.strftime_date d2)).
Proof.
  intros Hms. revert cd. induction Hms as [|m ms Hm _ IH]; intros cd.
  - exists []. split_and!; [done|done| |]; intros; simplify_eq/=.
  - destruct (message_body_renderable ps cd m Hm) as
      (d & vs & name & vme & vt & va & el & Hd & _ & _ & _ & _ & _ & _ & _ & Hbody).
    destruct (IH (Some (HtmlCreator.strftime_date d))) as
      (chunks & Hloop & Hlen & Hhead & Hnext).
    simpl. rewrite Hbody. cbn. rewrite Hloop. cbn.
    eexists. split_and!; [done|simpl; by rewrite Hlen| |].
    + intros m' d' chunk [= <-] [= <-] Hd'. rewrite Hd in Hd'.
      injection Hd' as <-. by apply starts_bucket_body.
    + intros [|i] m1 m2 d1 d2 chunk Hm1 Hm2 Hchunk Hd1 Hd2; simpl in *.
      * injection Hm1 as <-. rewrite Hd in Hd1. injection Hd1 as <-.
        rewrite (Hhead m2 d2 chunk Hm2 Hchunk Hd2). split; congruence.
      * exact (Hnext i m1 m2 d1 d2 chunk Hm1 Hm2 Hchunk Hd1 Hd2).
Qed.

End LoopFacts.

(** *** The date string identifies the calendar date *)

Lemma digit_inj (a b : Z) : HtmlCreator.digit a = HtmlCreator.digit b → a mod 10 = b mod 10.
Proof.
  unfold HtmlCreator.digit. intros H%(f_equal nat_of_ascii).
  pose proof (Z.mod_pos_bound a 10 ltac:(lia)).
  pose proof (Z.mod_pos_bound b 10 ltac:(lia)).
  rewrite !nat_ascii_embedding in H by lia. lia.
Qed.

(** Two strings that end in tails of one length are equal part by part. *)
Lemma append_inj_tail (s1 s2 t1 t2 : string) :
  String.length t1 = String.length t2 → s1 +:+ t1 = s2 +:+ t2 →
  s1 = s2 ∧ t1 = t2.
Proof.
  intros Hlen. revert s2. induction s1 as [|c1 s1 IH]; intros [|c2 s2] Heq.
  - done.
  - exfalso. apply (f_equal String.length) in Heq.
    change (String c2 s2 +:+ t2) with (String c2 (s2 +:+ t2)) in Heq.
    change ("" +:+ t1) with t1 in Heq. simpl in Heq.
    rewrite length_append in Heq. lia.
  - exfalso. apply (f_equal String.length) in Heq.
    change (String c1 s1 +:+ t1) with (String c1 (s1 +:+ t1)) in Heq.
    change ("" +:+ t2) with t2 in Heq. simpl in Heq.
    rewrite length_append in Heq. lia.
  - change (String c1 (s1 +:+ t1) = String c2 (s2 +:+ t2)) in Heq.
    injection Heq as -> Heq. destruct (IH s2 Heq) as [-> ->]. done.
Qed.

Lemma strftime_date_inj (d1 d2 : HtmlCreator.datetime) :
  HtmlCreator.valid_datetime d1 → HtmlCreator.valid_datetime d2 →
  HtmlCreator.strftime_date d1 = HtmlCreator.strftime_date d2 →
  HtmlCreator.calendar_date d1 = HtmlCreator.calendar_date d2.
Proof.
  intros (Hy1 & Hm1 & Hd1 & _) (Hy2 & Hm2 & Hd2 & _).
  unfold HtmlCreator.strftime_date, HtmlCreator.calendar_date.
  intros [Hyear Hrest]%append_inj_tail; [|done].
  apply (inj pretty) in Hyear. rewrite Hyear.
  unfold HtmlCreator.pad2 in Hrest. cbv [String.append] in Hrest.
  injection Hrest as He%digit_inj Hf%digit_inj Hg%digit_inj Hh%digit_inj.
  assert (HtmlCreator.month d1 = HtmlCreator.month d2) as ->
    by (clear Hg Hh; Z.div_mod_to_equations; lia).
  assert (HtmlCreator.day d1 = HtmlCreator.day d2) as ->
    by (clear He Hf; Z.div_mod_to_equations; lia).
  done.
Qed.

Lemma renderable_has_timestamp (fromtimestamp : Z → result HtmlCreator.datetime)
    (m : gmap string value) :
  renderable fromtimestamp m → has_timestamp m.
Proof.
  intros (_ & [d Hd] & _). rewrite local_datetime_timestamp_of in Hd.
  apply bind_Ok in Hd as (t & Ht%timestamp_of_Ok & _). by exists t.
Qed.

Lemma local_date_neq (fromtimestamp : Z → result HtmlCreator.datetime)
    (m1 m2 : gmap string value) (d1 d2 : HtmlCreator.datetime) :
  local_datetime fromtimestamp m1 = Ok d1 → HtmlCreator.valid_datetime d1 →
  local_datetime fromtimestamp m2 = Ok d2 → HtmlCreator.valid_datetime d2 →
  HtmlCreator.strftime_date d1 ≠ HtmlCreator.strftime_date d2 ↔
  local_date fromtimestamp m1 ≠ local_date fromtimestamp m2.
Proof.
  intros Hd1 Hv1 Hd2 Hv2. unfold local_date. rewrite Hd1, Hd2. split.
  - intros Hne [= Heq]. apply Hne.
    unfold HtmlCreator.calendar_date in Heq. unfold HtmlCreator.strftime_date. congruence.
  - intros Hne Heq. apply Hne. f_equal. by apply strftime_date_inj.
Qed.

(** C8: on a chat whose message records the loop renders, the page is
    produced from the messages in sorted order, one group of fragments per
    message; the group of the first message begins with a date divider, and
    the group of any later message begins with one exactly when its calendar
    date, the date of the integer that its record holds under [date] in the
    time zone of [fromtimestamp], differs from the calendar date of the
    message before it. *)
Theorem date_buckets (fromtimestamp : Z → result HtmlCreator.datetime) (c : chat) :
  Forall (renderable fromtimestamp) (messages c) →
  Forall (validly_dated fromtimestamp) (messages c) →
  ∃ sorted chunks,
    HtmlCreator._create_chat_page fromtimestamp c = Ok (HtmlCreator.chat_name c, sorted, chunks) ∧
    list_sort date_key false (messages c) = Ok sorted ∧
    length chunks = length sorted ∧
    (∀ chunk, chunks !! 0%nat = Some chunk → starts_bucket chunk = true) ∧
    (∀ i m1 m2 chunk,
       sorted !! i = Some m1 → sorted !! S i = Some m2 →
       chunks !! S i = Some chunk →
       (starts_bucket chunk = true ↔
        local_date fromtimestamp m1 ≠ local_date fromtimestamp m2)).
Proof.
  intros Hrender Hvalid.
  destruct (list_sort_Ok date_key timestamp false (messages c)) as
    (sorted & Hsort & Hperm & _).
  { eapply Forall_impl; [exact Hrender|]. intros m Hm.
    by eapply date_key_timestamp, renderable_has_timestamp. }
  rewrite <-Hperm in Hrender, Hvalid.
  destruct (message_loop_buckets fromtimestamp (participants c) sorted None Hrender)
    as (chunks & Hloop & Hlen & Hhead & Hnext).
  exists sorted, chunks. unfold HtmlCreator._create_chat_page.
  rewrite Hsort. cbn. rewrite Hloop. cbn. split_and!; [done..| |].
  - intros chunk Hchunk.
    destruct (sorted !! 0%nat) as [m|] eqn:Hm.
    + rewrite Forall_lookup in Hrender.
      destruct (Hrender _ _ Hm) as (_ & [d Hd] & _).
      by apply (Hhead m d chunk eq_refl Hchunk Hd).
    + apply lookup_lt_Some in Hchunk. apply lookup_ge_None in Hm. lia.
  - intros i m1 m2 chunk Hm1 Hm2 Hchunk.
    rewrite Forall_lookup in Hrender. rewrite Forall_lookup in Hvalid.
    destruct (Hrender _ _ Hm1) as (_ & [d1 Hd1] & _).
    destruct (Hrender _ _ Hm2) as (_ & [d2 Hd2] & _).
    rewrite (Hnext i m1 m2 d1 d2 chunk Hm1 Hm2 Hchunk Hd1 Hd2).
    apply local_date_neq; [done| |done|].
    + by apply (Hvalid _ _ Hm1).
    + by apply (Hvalid _ _ Hm2).
Qed.

(** A record written out is one the loop renders in the zone UTC. *)
Ltac renderable_literal :=
  split_and!;
  [ intros k Hk; unfold message_keys in Hk;
    repeat (apply elem_of_cons in Hk as [-> | Hk]; [eexists; reflexivity|]);
    by apply elem_of_nil in Hk
  | eexists; vm_compute; reflexivity
  | intros v Hv; vm_compute in Hv; injection Hv as <-; reflexivity
  | intros v Hv; vm_compute in Hv; injection Hv as <-; reflexivity ].

Ltac validly_dated_literal :=
  intros d Hd; vm_compute in Hd; injection Hd as <-;
  unfold HtmlCreator.valid_datetime; simpl; lia.

Lemma date_buckets_witness :
  ∃ sorted chunks,
    HtmlCreator._create_chat_page HtmlCreator.fromtimestamp_utc Sample.group =
      Ok (HtmlCreator.chat_name Sample.group, sorted, chunks) ∧
    list_sort date_key false (messages Sample.group) = Ok sorted ∧
    length chunks = length sorted ∧
    (∀ chunk, chunks !! 0%nat = Some chunk → starts_bucket chunk = true) ∧
    (∀ i m1 m2 chunk,
       sorted !! i = Some m1 → sorted !! S i = Some m2 →
       chunks !! S i = Some chunk →
       (starts_bucket chunk = true ↔
        local_date HtmlCreator.fromtimestamp_utc m1 ≠ local_date HtmlCreator.fromtimestamp_utc m2)).
Proof.
  apply (date_buckets HtmlCreator.fromtimestamp_utc Sample.group).
  - forall_each renderable_literal.
  - forall_each validly_dated_literal.
Defined.

(** The page of [Sample.group]: the messages in timestamp order, a divider
    before the first one and before the first of the next day. *)
Example create_chat_page_group :
  match HtmlCreator._create_chat_page HtmlCreator.fromtimestamp_utc Sample.group with
  | Ok (name, sorted, chunks) =>
      name = "Alice, Bob, Carol... (4 people)" ∧
      timestamp <$> sorted = [5; 86400; 86400] ∧
      text_of <$> sorted = [""; "hello"; ""] ∧
      chunks =
        [[HtmlCreator.DateDivider "1970-01-01";
          HtmlCreator.MessageOpen "message-outgoing" "Me" "12:00 AM";
          HtmlCreator.ImageTag "../attachments/a.JPG"; HtmlCreator.MessageClose];
         [HtmlCreator.DateDivider "1970-01-02";
          HtmlCreator.MessageOpen "message-incoming" "Alice" "12:00 AM";
          HtmlCreator.TextBubble "hello"; HtmlCreator.MessageClose];
         [HtmlCreator.MessageOpen "message-incoming" "9" "12:00 AM";
          HtmlCreator.AttachmentLink "../attachments/doc.pdf" "doc.pdf";
          HtmlCreator.MessageClose]]
  | Raise _ => False
  end.
Proof. vm_compute. by split_and!. Qed.

(** The iteration once the date of the message is converted. *)
Lemma message_body_dated (fromtimestamp : Z → result HtmlCreator.datetime)
    (ps : list (string * string)) (cd : option string) (m : gmap string value)
    (d : HtmlCreator.datetime) :
  local_datetime fromtimestamp m = Ok d →
  HtmlCreator.message_body fromtimestamp ps cd m =
    (sender_id ← getitem m "sender";
     sender_name ← HtmlCreator.participants_get ps sender_id;
     is_from_me ← getitem m "is_from_me";
     text ← getitem m "text";
     attachment ← getitem m "attachment_path";
     element ← HtmlCreator.attachment_fragments attachment;
     Ok (Some (HtmlCreator.strftime_date d),
         (if decide (cd ≠ Some (HtmlCreator.strftime_date d))
          then [HtmlCreator.DateDivider (HtmlCreator.strftime_date d)] else []) ++
         HtmlCreator.MessageOpen
           (if truthy is_from_me then "message-outgoing" else "message-incoming")
           (if truthy is_from_me then "Me" else format_value sender_name)
           (HtmlCreator.strftime_time d) ::
         (if truthy text then [HtmlCreator.TextBubble (format_value text)] else []) ++
         element ++ [HtmlCreator.MessageClose])).
Proof.
  intros Hd. rewrite local_datetime_timestamp_of in Hd.
  apply bind_Ok in Hd as (t & Ht & Hd).
  unfold HtmlCreator.message_body. rewrite Ht. cbn. rewrite Hd. cbn.
  destruct (getitem m "sender") as [vs|]; cbn; [|by case_decide].
  destruct (HtmlCreator.participants_get ps vs) as [name|]; cbn; [|by case_decide].
  destruct (getitem m "is_from_me") as [vme|]; cbn; [|by case_decide].
  destruct (getitem m "text") as [vt|]; cbn;
    [|by destruct (decide (cd ≠ _)), (truthy vme)].
  destruct (getitem m "attachment_path") as [va|]; cbn;
    [|by destruct (decide (cd ≠ _)), (truthy vme)].
  destruct (HtmlCreator.attachment_fragments va) as [el|]; cbn;
    [|by destruct (decide (cd ≠ _)), (truthy vme)].
  destruct (decide (cd ≠ _)) as [Hne | ->%dec_stable]; destruct (truthy vme);
    cbn; rewrite ?decide_True by done; try done.
Qed.

(** The keys of a message in the order the loop reads them. *)
Lemma message_keys_split (before after : list string) (k : string) :
  message_keys = before ++ k :: after →
  (before = [] ∧ k = "date") ∨
  (before = ["date"] ∧ k = "sender") ∨
  (before = ["date"; "sender"] ∧ k = "is_from_me") ∨
  (before = ["date"; "sender"; "is_from_me"] ∧ k = "text") ∨
  (before = ["date"; "sender"; "is_from_me"; "text"] ∧ k = "attachment_path").
Proof.
  unfold message_keys. intros H.
  do 5 (destruct before as [|? before];
        [injection H as <- <-; eauto 10 | injection H as <- H]).
  by destruct before.
Qed.

(** C6 as stated fails: a record from which an optional field is missing
    makes the loop raise [KeyError], for the text, for the attachment, and for
    the sender of an outgoing message alike; and a sender that is an empty
    array makes the loop raise [TypeError], although the message is outgoing. *)
Lemma missing_field_raises :
  HtmlCreator.message_body HtmlCreator.fromtimestamp_utc [("1", "Alice")] None Sample.no_text
    = Raise (KeyError "text") ∧
  HtmlCreator.message_body HtmlCreator.fromtimestamp_utc [("1", "Alice")] None Sample.no_attachment
    = Raise (KeyError "attachment_path") ∧
  HtmlCreator.message_body HtmlCreator.fromtimestamp_utc [("1", "Alice")] None Sample.no_sender
    = Raise (KeyError "sender") ∧
  HtmlCreator.message_body HtmlCreator.fromtimestamp_utc [("1", "Alice")] None Sample.unsigned
    = Raise TypeError.
Proof. split_and!; vm_compute; reflexivity. Qed.

(** C6, amended: for a message record that carries all five keys, with an
    integer date the platform converts, a sender that is hashable and an
    attachment that is a string or false, one iteration of the loop does not
    raise: a text that is [null] or empty (any value that is [falsy]) gives
    no text bubble, an attachment that is [null] or empty gives no attachment
    element, and when [is_from_me] is true (not [falsy]) the sender, whatever
    hashable value it holds, gives way to the label "Me" on an outgoing
    message. An absent key is not handled: the
    keys are read in the order [date], [sender], [is_from_me], [text],
    [attachment_path], and the first one that is absent raises [KeyError]
    with that key, when the date read before it converts and the sender read
    before it is hashable. A sender that is a list or a dictionary raises
    [TypeError] on a record whose date converts, whatever [is_from_me] is. *)
Theorem message_body_total (fromtimestamp : Z → result HtmlCreator.datetime)
    (ps : list (string * string)) (cd : option string) (m : gmap string value) :
  (renderable fromtimestamp m →
   ∃ cd' chunk,
     HtmlCreator.message_body fromtimestamp ps cd m = Ok (cd', chunk) ∧
     (∀ v, m !! "text" = Some v → falsy v = true →
        Forall (λ f, is_text_bubble f = false) chunk) ∧
     (∀ v, m !! "attachment_path" = Some v → falsy v = true →
        Forall (λ f, is_attachment_element f = false) chunk) ∧
     (∀ v, m !! "is_from_me" = Some v → falsy v = false →
        ∃ time_str,
          HtmlCreator.MessageOpen "message-outgoing" "Me" time_str ∈ chunk)) ∧
  (∀ before k after,
     message_keys = before ++ k :: after →
     Forall (λ k', is_Some (m !! k')) before →
     m !! k = None →
     ("date" ∈ before → ∃ d, local_datetime fromtimestamp m = Ok d) →
     ("sender" ∈ before → ∀ v, m !! "sender" = Some v → hashable v = true) →
     HtmlCreator.message_body fromtimestamp ps cd m = Raise (KeyError k)) ∧
  ((∃ d, local_datetime fromtimestamp m = Ok d) →
   ∀ v, m !! "sender" = Some v → hashable v = false →
   HtmlCreator.message_body fromtimestamp ps cd m = Raise TypeError).
Proof.
  split_and!.
  - intros Hm.
    destruct (message_body_renderable fromtimestamp ps cd m Hm) as
      (d & vs & name & vme & vt & va & el & Hd & Hvs & Hname & Hvme & Hvt & Hva &
       Hnone & Hel & ->).
    eexists _, _. split; [done|]. split_and!.
    + intros v Hv Hfalse. rewrite Hvt in Hv. injection Hv as <-.
      rewrite (truthy_falsy vt), Hfalse. simpl negb. cbv iota.
      rewrite !Forall_app. split_and!.
      * case_decide; by repeat constructor.
      * by repeat constructor.
      * constructor.
      * eapply Forall_impl; [exact Hel|]. by intros f [_ ?].
      * by repeat constructor.
    + intros v Hv Hfalse. rewrite Hva in Hv. injection Hv as <-.
      rewrite Hnone by (by rewrite (truthy_falsy va), Hfalse).
      rewrite !Forall_app. split_and!.
      * case_decide; by repeat constructor.
      * by repeat constructor.
      * destruct (truthy vt); by repeat constructor.
      * constructor.
      * by repeat constructor.
    + intros v Hv Htrue. rewrite Hvme in Hv. injection Hv as <-.
      rewrite (truthy_falsy vme), Htrue. simpl negb. cbv iota.
      eexists. rewrite elem_of_app. right. apply list_elem_of_here.
  - intros before k after Hkeys Hbefore Hnone Hdate Hsender.
    apply message_keys_split in Hkeys
      as [[-> ->] | [[-> ->] | [[-> ->] | [[-> ->] | [-> ->]]]]].
    + unfold HtmlCreator.message_body, timestamp_of, date_key, getitem.
      by rewrite Hnone.
    + destruct Hdate as [d Hd]; [elem_of_literal|].
      rewrite (message_body_dated _ _ _ _ _ Hd). unfold getitem.
      by rewrite Hnone.
    + destruct Hdate as [d Hd]; [elem_of_literal|].
      apply Forall_cons in Hbefore as [_ [[vs Hvs] _]%Forall_cons].
      destruct (proj1 (participants_get_Ok ps vs)) as [name Hname];
        [apply Hsender; [elem_of_literal|done]|].
      rewrite (message_body_dated _ _ _ _ _ Hd). unfold getitem.
      rewrite Hvs. cbn. rewrite Hname. cbn. by rewrite Hnone.
    + destruct Hdate as [d Hd]; [elem_of_literal|].
      apply Forall_cons in Hbefore
        as [_ [[vs Hvs] [[vme Hvme] _]%Forall_cons]%Forall_cons].
      destruct (proj1 (participants_get_Ok ps vs)) as [name Hname];
        [apply Hsender; [elem_of_literal|done]|].
      rewrite (message_body_dated _ _ _ _ _ Hd). unfold getitem.
      rewrite Hvs. cbn. rewrite Hname. cbn. rewrite Hvme. cbn. by rewrite Hnone.
    + destruct Hdate as [d Hd]; [elem_of_literal|].
      apply Forall_cons in Hbefore
        as [_ [[vs Hvs] [[vme Hvme] [[vt Hvt] _]%Forall_cons]%Forall_cons]%Forall_cons].
      destruct (proj1 (participants_get_Ok ps vs)) as [name Hname];
        [apply Hsender; [elem_of_literal|done]|].
      rewrite (message_body_dated _ _ _ _ _ Hd). unfold getitem.
      rewrite Hvs. cbn. rewrite Hname. cbn. rewrite Hvme. cbn. rewrite Hvt. cbn.
      by rewrite Hnone.
  - intros [d Hd] v Hv Hhash.
    rewrite (message_body_dated _ _ _ _ _ Hd). unfold getitem.
    rewrite Hv. cbn. by destruct v.
Qed.

(** The theorem on three records: one with nothing in its optional fields,
    one without its text, one whose sender is an empty array. *)
Lemma message_body_total_witness :
  (∃ cd' chunk,
     HtmlCreator.message_body HtmlCreator.fromtimestamp_utc [("1", "Alice")] None Sample.bare
       = Ok (cd', chunk) ∧
     (∀ v, Sample.bare !! "text" = Some v → falsy v = true →
        Forall (λ f, is_text_bubble f = false) chunk) ∧
     (∀ v, Sample.bare !! "attachment_path" = Some v → falsy v = true →
        Forall (λ f, is_attachment_element f = false) chunk) ∧
     (∀ v, Sample.bare !! "is_from_me" = Some v → falsy v = false →
        ∃ time_str,
          HtmlCreator.MessageOpen "message-outgoing" "Me" time_str ∈ chunk)) ∧
  HtmlCreator.message_body HtmlCreator.fromtimestamp_utc [("1", "Alice")] None
    Sample.no_text = Raise (KeyError "text") ∧
  HtmlCreator.message_body HtmlCreator.fromtimestamp_utc [("1", "Alice")] None
    Sample.unsigned = Raise TypeError.
Proof.
  split_and!.
  - apply (proj1 (message_body_total HtmlCreator.fromtimestamp_utc [("1", "Alice")]
                    None Sample.bare)).
    renderable_literal.
  - apply (proj1 (proj2 (message_body_total HtmlCreator.fromtimestamp_utc
                           [("1", "Alice")] None Sample.no_text))
             ["date"; "sender"; "is_from_me"] "text" ["attachment_path"]).
    + reflexivity.
    + forall_each ltac:(eexists; reflexivity).
    + reflexivity.
    + intros _. eexists. vm_compute. reflexivity.
    + intros _ v Hv. vm_compute in Hv. injection Hv as <-. reflexivity.
  - apply (proj2 (proj2 (message_body_total HtmlCreator.fromtimestamp_utc
                           [("1", "Alice")] None Sample.unsigned))
             (ex_intro _ _ eq_refl) (VList [])); reflexivity.
Defined.

(** An outgoing message without sender, text or attachment: a divider and an
    empty bubble signed "Me". *)
Example message_body_bare :
  HtmlCreator.message_body HtmlCreator.fromtimestamp_utc [("1", "Alice")] None Sample.bare =
  Ok (Some "1970-01-02",
      [HtmlCreator.DateDivider "1970-01-02";
       HtmlCreator.MessageOpen "message-outgoing" "Me" "12:00 AM";
       HtmlCreator.MessageClose]).
Proof. vm_compute. reflexivity. Qed.

(** * Further properties of the code *)

(** ** utils.py: [convert_date] on nanosecond values *)

(** A whole number of seconds [s] after the Apple epoch with [ns] nanoseconds,
    written in the modern encoding, converts to the Unix second of [s],
    whatever [ns] is, from 978308 seconds after the epoch on. *)
Theorem convert_date_nanoseconds (s ns : Z) :
  978308 ≤ s → 0 ≤ ns < 1000000000 →
  Utils.convert_date (s * 1000000000 + ns) = s + 978307200.
Proof.
  intros Hs Hns. unfold Utils.convert_date, Utils.epoch.
  change (1000 ^ 2) with 1000000. change (1000 ^ 3) with 1000000000.
  rewrite decide_True by lia. f_equal.
  symmetry. apply (Z.div_unique _ _ s ns); lia.
Qed.

Lemma convert_date_nanoseconds_witness :
  Utils.convert_date (700000000 * 1000000000 + 123456789) = 1678307200.
Proof. apply (convert_date_nanoseconds 700000000 123456789); lia. Defined.

(** ** utils.py: the suffix of a file name *)

Lemma rfind_from_None (c : ascii) (i : nat) (s : string) :
  rfind_from c i s = None ↔ c ∉ list_ascii_of_string s.
Proof.
  revert i. induction s as [|c' s IH]; intros i; simpl.
  - split; [intros _; apply not_elem_of_nil|done].
  - rewrite not_elem_of_cons, <-(IH (S i)).
    destruct (rfind_from c (S i) s).
    + split; [done|]. by intros [_ ?].
    + case_decide as Hc; split; intros H; try done;
        try (destruct H; congruence); split; congruence.
Qed.

Lemma rfind_from_Some (c : ascii) (i j : nat) (s : string) :
  rfind_from c i s = Some j →
  (i ≤ j)%nat ∧ ∃ rest, str_drop (j - i) s = String c rest ∧
                        c ∉ list_ascii_of_string rest.
Proof.
  revert i. induction s as [|c' s IH]; intros i; simpl; [done|].
  destruct (rfind_from c (S i) s) as [j'|] eqn:Htail.
  - intros [= ->]. destruct (IH _ Htail) as (Hle & rest & Hdrop & Hrest).
    split; [lia|]. exists rest. split; [|done].
    replace (j - i)%nat with (S (j - S i)) by lia. done.
  - case_decide as Hc; [|done]. intros [= ->]. subst c'.
    split; [lia|]. exists s. rewrite Nat.sub_diag. split; [done|].
    by apply (rfind_from_None c (S j)).
Qed.

Lemma rfind_from_shift (c : ascii) (i : nat) (s : string) :
  rfind_from c i s = (λ j, (j + i)%nat) <$> rfind_from c 0 s.
Proof.
  revert i. induction s as [|c' s IH]; intros i; simpl; [done|].
  rewrite (IH (S i)), (IH 1%nat).
  destruct (rfind_from c 0 s) as [j|]; simpl; [f_equal; lia|].
  by case_decide.
Qed.

(** The suffix of a name is empty or is one dot followed by text without a dot. *)
Lemma suffix_shape (name : string) :
  Utils.suffix name = "" ∨
  ∃ rest, Utils.suffix name = String "." rest ∧ rest ≠ "" ∧
          "."%char ∉ list_ascii_of_string rest.
Proof.
  unfold Utils.suffix, rfind.
  destruct (rfind_from "." 0 name) as [i|] eqn:Hfind; [|by left].
  destruct (_ && _) eqn:Hcond; [|by left]. right.
  apply andb_true_iff in Hcond as [_ Hlen%Nat.ltb_lt].
  destruct (rfind_from_Some _ _ _ _ Hfind) as (_ & rest & Hdrop & Hrest).
  rewrite Nat.sub_0_r in Hdrop. exists rest. split_and!; [done| |done].
  intros ->. apply (f_equal String.length) in Hdrop.
  assert (Hdroplen : ∀ n s, String.length (str_drop n s) = (String.length s - n)%nat).
  { clear. induction n as [|n IH]; intros [|c s]; simpl; done || lia. }
  rewrite Hdroplen in Hdrop. simpl in Hdrop. lia.
Qed.

Lemma ascii_lower_dot (c : ascii) : ascii_lower c = "."%char ↔ c = "."%char.
Proof.
  destruct c as [[] [] [] [] [] [] [] []]; vm_compute; split; congruence.
Qed.

Lemma lower_dot (s : string) :
  "."%char ∈ list_ascii_of_string (lower s) ↔ "."%char ∈ list_ascii_of_string s.
Proof.
  induction s as [|c s IH]; simpl; [done|].
  rewrite !elem_of_cons, IH.
  split; (intros [Hc|?]; [left|by right]).
  - symmetry. by apply ascii_lower_dot.
  - symmetry. by apply ascii_lower_dot.
Qed.

Lemma length_lower (s : string) : String.length (lower s) = String.length s.
Proof. induction s; simpl; [done|]. by f_equal. Qed.

Lemma rfind_from_lower (i : nat) (s : string) :
  rfind_from "." i (lower s) = rfind_from "." i s.
Proof.
  revert i. induction s as [|c s IH]; intros i; simpl; [done|].
  rewrite IH. destruct (rfind_from "." (S i) s); [done|].
  destruct (decide (c = "."%char)) as [->|Hc]; [done|].
  rewrite decide_False; [done|]. intros H.
  by apply (proj1 (ascii_lower_dot c)) in H.
Qed.

Lemma append_assoc (s1 s2 s3 : string) : (s1 +:+ s2) +:+ s3 = s1 +:+ (s2 +:+ s3).
Proof.
  induction s1 as [|c s1 IH]; [done|].
  change (String c ((s1 +:+ s2) +:+ s3) = String c (s1 +:+ (s2 +:+ s3))).
  by rewrite IH.
Qed.

Lemma append_nonempty (s1 s2 : string) : s2 ≠ "" → s1 +:+ s2 ≠ "".
Proof. intros Hs2. by destruct s1, s2. Qed.

(** A name made of a non-empty stem and of an extension that begins with its
    only dot has that extension as its suffix. *)
Lemma suffix_app (stem ext : string) :
  stem ≠ "" → rfind "." ext = Some 0%nat → (2 ≤ String.length ext)%nat →
  Utils.suffix (stem +:+ ext) = ext.
Proof.
  intros Hstem Hext Hlen. unfold Utils.suffix, rfind in *.
  rewrite rfind_from_app, rfind_from_shift, Hext. simpl.
  rewrite length_append.
  assert (0 < String.length stem)%nat by (destruct stem; simpl; [done|lia]).
  rewrite (proj2 (Nat.ltb_lt _ _)) by lia.
  rewrite (proj2 (Nat.ltb_lt _ _)) by lia.
  simpl. apply str_drop_app_length.
Qed.

(** ** utils.py: what [get_archive_format] accepts and rejects *)

(** [get_archive_format] returns a format exactly for the names whose
    lowered suffix is one of the five one-part keys of the table; the keys
    [.tar.gz], [.tar.bz2] and [.tar.xz] never select a format. *)
Theorem get_archive_format_Ok_iff (name fmt : string) :
  Utils.get_archive_format name = Ok fmt ↔
  (lower (Utils.suffix name), fmt) ∈
    [(".zip", "zip"); (".tar", "tar"); (".tgz", "gztar"); (".tbz", "bztar");
     (".txz", "xztar")].
Proof.
  unfold Utils.get_archive_format. split.
  - destruct (Utils.formats_lookup _ _) as [fmt'|] eqn:Hlookup; [|done].
    intros [= ->].
    assert (Hdot : ∀ rest, lower (Utils.suffix name) = String "." rest →
              "."%char ∉ list_ascii_of_string rest).
    { intros rest Hrest.
      destruct (suffix_shape name) as [Hs | (rest' & Hs & _ & Hnodot)];
        rewrite Hs in Hrest; [done|].
      simpl in Hrest. injection Hrest as <-. by rewrite lower_dot. }
    unfold Utils.formats_lookup, Utils.formats in Hlookup.
    repeat case_decide; simplify_eq;
      match goal with
      | H : _ = lower _ |- _ =>
          first [ solve [rewrite <-H; elem_of_literal]
                | exfalso; apply (Hdot _ (eq_sym H)); simpl;
                  solve [elem_of_literal] ]
      end.
  - intros Hin. repeat (apply elem_of_cons in Hin as [[= -> ->] | Hin]; [done|]).
    by apply elem_of_nil in Hin.
Qed.

(** A file name made of a non-empty stem without a path separator, so that
    the stem and the extension are the final component of the path, followed
    by one of the five one-part extensions in any letter case, is given the
    format of that extension. *)
Theorem get_archive_format_any_case (stem ext ext' fmt : string) :
  stem ≠ "" →
  "/"%char ∉ list_ascii_of_string stem →
  (ext, fmt) ∈ [(".zip", "zip"); (".tar", "tar"); (".tgz", "gztar");
                (".tbz", "bztar"); (".txz", "xztar")] →
  lower ext' = ext →
  Utils.get_archive_format (stem +:+ ext') = Ok fmt.
Proof.
  intros Hstem _ Hin Hlower.
  assert (Hfind : rfind "." ext' = Some 0%nat ∧ String.length ext' = 4%nat).
  { unfold rfind. rewrite <-(rfind_from_lower 0 ext'), <-(length_lower ext'), Hlower.
    repeat (apply elem_of_cons in Hin as [[= -> ->] | Hin]; [done|]).
    by apply elem_of_nil in Hin. }
  destruct Hfind as [Hfind Hlen].
  unfold Utils.get_archive_format.
  rewrite suffix_app by (done || lia). rewrite Hlower.
  repeat (apply elem_of_cons in Hin as [[= -> ->] | Hin]; [done|]).
  by apply elem_of_nil in Hin.
Qed.

Lemma get_archive_format_any_case_witness :
  Utils.get_archive_format ("Backup 2024" +:+ ".TgZ") = Ok "gztar".
Proof.
  apply (get_archive_format_any_case "Backup 2024" ".tgz" ".TgZ" "gztar").
  - done.
  - simpl. rewrite !not_elem_of_cons. split_and!; try done. apply not_elem_of_nil.
  - elem_of_literal.
  - reflexivity.
Defined.

(** Whatever the stem, a name that ends in one of the two-part extensions of
    the table is rejected, under the last part of the extension. *)
Theorem get_archive_format_two_part_rejected (stem : string) :
  Utils.get_archive_format (stem +:+ ".tar.gz") =
    Raise (ValueError (Utils.unsupported_message ".gz")) ∧
  Utils.get_archive_format (stem +:+ ".tar.bz2") =
    Raise (ValueError (Utils.unsupported_message ".bz2")) ∧
  Utils.get_archive_format (stem +:+ ".tar.xz") =
    Raise (ValueError (Utils.unsupported_message ".xz")).
Proof.
  unfold Utils.get_archive_format.
  change ".tar.gz" with (".tar" +:+ ".gz").
  change ".tar.bz2" with (".tar" +:+ ".bz2").
  change ".tar.xz" with (".tar" +:+ ".xz").
  rewrite <-!append_assoc.
  rewrite !suffix_app by (done || (simpl; lia) || by apply append_nonempty).
  done.
Qed.

(** A name without a dot and a name whose only dot is its first character
    have no suffix: they are rejected under the empty extension, the name
    [.zip] included. *)
Theorem get_archive_format_no_suffix (name : string) :
  "."%char ∉ list_ascii_of_string name →
  Utils.get_archive_format name =
    Raise (ValueError (Utils.unsupported_message "")) ∧
  Utils.get_archive_format ("." +:+ name) =
    Raise (ValueError (Utils.unsupported_message "")).
Proof.
  intros Hdot. unfold Utils.get_archive_format. split.
  - assert (Utils.suffix name = "") as ->; [|done].
    unfold Utils.suffix, rfind.
    by rewrite (proj2 (rfind_from_None "." 0 name) Hdot).
  - assert (Utils.suffix ("." +:+ name) = "") as ->; [|done].
    unfold Utils.suffix, rfind.
    change ("." +:+ name) with (String "." name). simpl rfind_from.
    by rewrite (proj2 (rfind_from_None "." 1 name) Hdot).
Qed.

Lemma get_archive_format_no_suffix_witness :
  Utils.get_archive_format "zip" =
    Raise (ValueError (Utils.unsupported_message "")) ∧
  Utils.get_archive_format ("." +:+ "zip") =
    Raise (ValueError (Utils.unsupported_message "")).
Proof.
  apply (get_archive_format_no_suffix "zip").
  simpl. rewrite !not_elem_of_cons. split_and!; try done. apply not_elem_of_nil.
Defined.

(** ** html_creator.py: the sorts *)

Lemma mapM_Ok_Forall2 {A B : Type} (f : A → result B) (l : list A) (k : list B) :
  mapM f l = Ok k ↔ Forall2 (λ x y, f x = Ok y) l k.
Proof.
  revert k. induction l as [|x l IH]; intros k; cbn.
  - split; [intros [= <-]; constructor|by inversion 1].
  - split.
    + intros (y & Hy & (k' & Hk' & [= <-])%bind_Ok)%bind_Ok.
      constructor; [done|by apply IH].
    + inversion 1 as [|? y ? k' Hy Hk']; subst.
      rewrite Hy. cbn. apply IH in Hk'. by rewrite Hk'.
Qed.

(** A sort that returns gives a rearrangement of its input; it has found an
    integer under every key, unless the list is too short for a comparison. *)
Lemma list_sort_Ok_inv (b : bool) (ms out : list (gmap string value)) :
  list_sort date_key b ms = Ok out →
  out ≡ₚ ms ∧ (Forall has_timestamp ms ∨ out = ms ∧ (length ms < 2)%nat).
Proof.
  unfold list_sort. intros (vs & Hvs%mapM_Ok_Forall2 & Hout)%bind_Ok.
  case_decide as Hlen; [injection Hout as <-; by auto|].
  apply bind_Ok in Hout as (ts & Hts%mapM_Ok_Forall2 & [= <-]).
  split.
  - rewrite sort_keyed_reverse_Permutation. rewrite snd_zip; [done|].
    apply Forall2_length in Hvs. apply Forall2_length in Hts. lia.
  - left. clear b Hlen. revert ts Hts.
    induction Hvs as [|m v ms vs Hm _ IH]; intros ts Hts; [constructor|].
    inversion Hts as [|? t ? ts' Ht Hts']; subst. constructor; [|by eapply IH].
    exists t. apply timestamp_of_Ok. unfold timestamp_of. rewrite Hm. done.
Qed.

(** A message without a [date] makes either sort raise [KeyError], wherever
    the message is in the list and whatever the other messages hold. *)
Theorem list_sort_missing_date (b : bool) (ms : list (gmap string value)) :
  Exists (λ m, m !! "date" = None) ms →
  list_sort date_key b ms = Raise (KeyError "date").
Proof.
  intros Hms. unfold list_sort.
  assert (mapM date_key ms = Raise (KeyError "date")) as ->; [|done].
  induction ms as [|m ms IH]; [by apply Exists_nil in Hms|].
  change (mapM date_key (m :: ms))
    with (y ← date_key m; k ← mapM date_key ms; mret (y :: k)).
  assert (Hm' : date_key m = Raise (KeyError "date") ∨ ∃ v, date_key m = Ok v).
  { unfold date_key, getitem. destruct (m !! "date"); eauto. }
  apply Exists_cons in Hms as [Hm | Hms].
  - unfold date_key, getitem. by rewrite Hm.
  - destruct Hm' as [-> | [v ->]]; [done|]. cbn. by rewrite (IH Hms).
Qed.

Lemma list_sort_missing_date_witness :
  list_sort date_key true [Sample.note 10 "a"; Sample.no_date; Sample.note 5 "b"]
  = Raise (KeyError "date").
Proof.
  apply (list_sort_missing_date true).
  apply Exists_cons_tl, Exists_cons_hd. reflexivity.
Defined.

(** Sorting is idempotent: a list that a sort has returned is returned
    unchanged by the same sort. *)
Theorem list_sort_idempotent (b : bool) (ms out : list (gmap string value)) :
  list_sort date_key b ms = Ok out → list_sort date_key b out = Ok out.
Proof.
  intros Hsort.
  destruct (list_sort_Ok_inv b ms out Hsort) as [Hperm [Hts | [-> _]]]; [|done].
  assert (Hkey : Forall (integer_key date_key timestamp) ms).
  { eapply Forall_impl; [exact Hts|]. apply date_key_timestamp. }
  destruct (list_sort_Ok date_key timestamp b ms Hkey) as
    (out' & Hsort' & _ & Hsorted & _).
  assert (out' = out) as -> by congruence.
  apply (list_sort_determined date_key timestamp b); [by rewrite Hperm|done|done].
Qed.

Lemma list_sort_idempotent_witness :
  list_sort date_key false [Sample.note 10 "first"; Sample.note 20 "second"]
  = Ok [Sample.note 10 "first"; Sample.note 20 "second"].
Proof.
  apply (list_sort_idempotent false (messages Sample.notes)).
  vm_compute. reflexivity.
Defined.

(** ** html_creator.py: the preview of the index page *)

(** The index page sees the messages as the chat page has sorted them in
    place; its preview is the one of the document as loaded. *)
Theorem preview_after_page_sort (c : chat) (sorted : list (gmap string value)) :
  Forall has_timestamp (messages c) →
  list_sort date_key false (messages c) = Ok sorted →
  HtmlCreator.last_message_preview (HtmlCreator.with_messages c sorted) =
  HtmlCreator.last_message_preview c.
Proof. apply preview_sorted_unchanged. Qed.

Lemma preview_after_page_sort_witness :
  HtmlCreator.last_message_preview
    (HtmlCreator.with_messages Sample.notes
       [Sample.note 10 "first"; Sample.note 20 "second"]) =
  HtmlCreator.last_message_preview Sample.notes.
Proof.
  apply (preview_after_page_sort Sample.notes).
  - forall_each ltac:(eexists; reflexivity).
  - vm_compute. reflexivity.
Defined.

Lemma first_text_length (l : list (gmap string value)) (p : string) :
  Forall has_text_field l →
  HtmlCreator.first_text l = Ok p → (String.length p ≤ 53)%nat.
Proof.
  induction 1 as [|m l Hm _ IH]; simpl.
  - intros [= <-]. simpl. lia.
  - unfold getitem. destruct Hm as [-> | [s ->]]; cbn; [apply IH|].
    destruct (negb (String.eqb s "")); [|apply IH].
    case_decide as Hlen; intros [= <-]; [|lia].
    rewrite length_append, length_str_take by lia. simpl. lia.
Qed.

(** When the text of every message is [null] or a string, a preview that is
    produced has at most 53 characters: 50 of the text and the three dots. *)
Theorem preview_length_bound (c : chat) (p : string) :
  Forall has_text_field (messages c) →
  HtmlCreator.last_message_preview c = Ok p → (String.length p ≤ 53)%nat.
Proof.
  intros Htext. unfold HtmlCreator.last_message_preview.
  destruct (messages c) as [|m ms] eqn:Hms.
  - intros [= <-]. simpl. lia.
  - intros (sorted & Hsort & Hp)%bind_Ok.
    apply list_sort_Ok_inv in Hsort as [Hperm _].
    eapply first_text_length; [|done]. by rewrite Hperm.
Qed.

Lemma preview_length_bound_witness :
  (String.length "01234567890123456789012345678901234567890123456789..." ≤ 53)%nat.
Proof.
  apply (preview_length_bound Sample.wordy).
  - forall_each ltac:(solve [left; reflexivity | right; eexists; reflexivity]).
  - vm_compute. reflexivity.
Defined.

(** On messages with integer dates and texts that are [null] or strings, the
    preview is empty exactly when no message has a non-empty text. *)
Theorem preview_empty_iff (c : chat) :
  Forall has_timestamp (messages c) →
  Forall has_text_field (messages c) →
  (HtmlCreator.last_message_preview c = Ok "" ↔
   Forall (λ m, text_of m = "") (messages c)).
Proof.
  intros Hts Htext.
  destruct (list_sort_Ok date_key timestamp true (messages c)) as
    (sorted & Hsort & Hperm & _).
  { eapply Forall_impl; [exact Hts|]. apply date_key_timestamp. }
  assert (Hprev : HtmlCreator.last_message_preview c = HtmlCreator.first_text sorted).
  { unfold HtmlCreator.last_message_preview.
    destruct (messages c) as [|m0 ms] eqn:Hms; [|by rewrite Hsort].
    apply Permutation_nil_r in Hperm. by subst sorted. }
  rewrite Hprev, <-Hperm. rewrite <-Hperm in Htext.
  destruct (first_text_spec sorted Htext) as
    [[Hall ->] | (i & m & Hi & Hne & _ & ->)]; [done|].
  split.
  - intros [= Hp]. exfalso. case_decide.
    + by destruct (str_take 50 (text_of m)).
    + done.
  - intros Hall. rewrite Forall_lookup in Hall. by specialize (Hall i m Hi).
Qed.

Lemma preview_empty_iff_witness :
  HtmlCreator.last_message_preview Sample.notes = Ok "" ↔
  Forall (λ m, text_of m = "") (messages Sample.notes).
Proof.
  apply (preview_empty_iff Sample.notes).
  - forall_each ltac:(eexists; reflexivity).
  - forall_each ltac:(right; eexists; reflexivity).
Defined.

(** ** html_creator.py: one iteration of the message loop *)

Lemma getitem_Ok (m : gmap string value) (k : string) (v : value) :
  getitem m k = Ok v ↔ m !! k = Some v.
Proof. unfold getitem. destruct (m !! k); split; congruence. Qed.

Lemma attachment_fragments_Ok_inv (v : value) (el : list HtmlCreator.fragment) :
  HtmlCreator.attachment_fragments v = Ok el →
  attachment_ok v = true ∧
  (el = [] ∨ (∃ p, el = [HtmlCreator.ImageTag p]) ∨
   ∃ p n, el = [HtmlCreator.AttachmentLink p n]).
Proof.
  unfold HtmlCreator.attachment_fragments.
  destruct (truthy v) eqn:Htruth.
  - destruct v as [|b|n|name|l|d]; try done. split; [done|].
    destruct (existsb _ HtmlCreator.image_extensions); injection H as <-; eauto.
  - intros [= <-]. split; [|by left].
    rewrite truthy_falsy in Htruth. apply negb_false_iff in Htruth.
    by destruct v.
Qed.

(** What an iteration that returns has read and appended. *)
Lemma message_body_Ok_inv (fromtimestamp : Z → result HtmlCreator.datetime)
    (ps : list (string * string)) (cd cd' : option string)
    (m : gmap string value) (chunk : list HtmlCreator.fragment) :
  HtmlCreator.message_body fromtimestamp ps cd m = Ok (cd', chunk) →
  ∃ d vs name vme vt va el,
    local_datetime fromtimestamp m = Ok d ∧
    m !! "date" ≠ None ∧
    m !! "sender" = Some vs ∧ HtmlCreator.participants_get ps vs = Ok name ∧
    m !! "is_from_me" = Some vme ∧
    m !! "text" = Some vt ∧ m !! "attachment_path" = Some va ∧
    HtmlCreator.attachment_fragments va = Ok el ∧
    cd' = Some (HtmlCreator.strftime_date d) ∧
    chunk =
      (if decide (cd ≠ Some (HtmlCreator.strftime_date d))
       then [HtmlCreator.DateDivider (HtmlCreator.strftime_date d)] else []) ++
      HtmlCreator.MessageOpen
        (if truthy vme then "message-outgoing" else "message-incoming")
        (if truthy vme then "Me" else format_value name)
        (HtmlCreator.strftime_time d) ::
      (if truthy vt then [HtmlCreator.TextBubble (format_value vt)] else []) ++
      el ++ [HtmlCreator.MessageClose].
Proof.
  intros Hbody.
  assert (∃ d, local_datetime fromtimestamp m = Ok d) as [d Hd].
  { rewrite local_datetime_timestamp_of. unfold HtmlCreator.message_body in Hbody.
    apply bind_Ok in Hbody as (t & -> & (d & Hd & _)%bind_Ok). by exists d. }
  assert (Hdate : m !! "date" ≠ None).
  { unfold local_datetime in Hd. by destruct (m !! "date"). }
  rewrite (message_body_dated _ _ _ _ _ Hd) in Hbody.
  apply bind_Ok in Hbody as (vs & Hvs%getitem_Ok & Hbody).
  apply bind_Ok in Hbody as (name & Hname & Hbody).
  apply bind_Ok in Hbody as (vme & Hvme%getitem_Ok & Hbody).
  apply bind_Ok in Hbody as (vt & Hvt%getitem_Ok & Hbody).
  apply bind_Ok in Hbody as (va & Hva%getitem_Ok & Hbody).
  apply bind_Ok in Hbody as (el & Hel & [= <- <-]).
  by exists d, vs, name, vme, vt, va, el.
Qed.

Lemma message_body_Ok_renderable (fromtimestamp : Z → result HtmlCreator.datetime)
    (ps : list (string * string)) (cd cd' : option string)
    (m : gmap string value) (chunk : list HtmlCreator.fragment) :
  HtmlCreator.message_body fromtimestamp ps cd m = Ok (cd', chunk) →
  renderable fromtimestamp m.
Proof.
  intros (d & vs & name & vme & vt & va & el & Hd & Hdate & Hvs & Hname & Hvme &
          Hvt & Hva & Hel & _)%message_body_Ok_inv.
  split_and!.
  - intros k Hk. unfold message_keys in Hk.
    repeat (apply elem_of_cons in Hk as [-> | Hk];
            [first [by eexists | by destruct (m !! "date")]|]).
    by apply elem_of_nil in Hk.
  - by exists d.
  - intros v Hv. rewrite Hvs in Hv. injection Hv as <-.
    apply (participants_get_Ok ps). by exists name.
  - intros v Hv. rewrite Hva in Hv. injection Hv as <-.
    by apply attachment_fragments_Ok_inv in Hel as [? _].
Qed.

Lemma message_loop_Ok_inv (fromtimestamp : Z → result HtmlCreator.datetime)
    (ps : list (string * string)) (ms : list (gmap string value)) :
  ∀ cd chunks,
    HtmlCreator.message_loop fromtimestamp ps cd ms = Ok chunks →
    Forall2 (λ m chunk, ∃ cd0 cd1,
               HtmlCreator.message_body fromtimestamp ps cd0 m = Ok (cd1, chunk))
            ms chunks.
Proof.
  induction ms as [|m ms IH]; intros cd chunks; simpl.
  - intros [= <-]. constructor.
  - intros ([cd1 chunk] & Hbody & (rest & Hrest & [= <-])%bind_Ok)%bind_Ok.
    constructor; [by exists cd, cd1|by eapply IH].
Qed.

(** A chat page is produced when every message record of the chat is one
    the loop renders. When a page is produced, every message record of the
    chat carries the five keys, a hashable sender and an attachment that is a
    string or false: a single record that lacks one of these aborts the page,
    wherever it is in the list. *)
Theorem create_chat_page_Ok_conditions
    (fromtimestamp : Z → result HtmlCreator.datetime) (c : chat) :
  (Forall (renderable fromtimestamp) (messages c) →
   ∃ page, HtmlCreator._create_chat_page fromtimestamp c = Ok page) ∧
  ((∃ page, HtmlCreator._create_chat_page fromtimestamp c = Ok page) →
   Forall (λ m, (∀ k, k ∈ message_keys → is_Some (m !! k)) ∧
                (∀ v, m !! "sender" = Some v → hashable v = true) ∧
                (∀ v, m !! "attachment_path" = Some v → attachment_ok v = true))
          (messages c)).
Proof.
  unfold HtmlCreator._create_chat_page. split.
  - intros Hrender.
    destruct (list_sort_Ok date_key timestamp false (messages c)) as
      (sorted & Hsort & Hperm & _).
    { eapply Forall_impl; [exact Hrender|]. intros m Hm.
      by eapply date_key_timestamp, renderable_has_timestamp. }
    rewrite <-Hperm in Hrender.
    destruct (message_loop_buckets fromtimestamp (participants c) sorted None Hrender)
      as (chunks & Hloop & _).
    rewrite Hsort. cbn. rewrite Hloop. cbn. by eexists.
  - intros [page (sorted & Hsort & (chunks & Hloop & _)%bind_Ok)%bind_Ok].
    apply list_sort_Ok_inv in Hsort as [Hperm _]. rewrite <-Hperm. clear Hperm.
    apply message_loop_Ok_inv in Hloop.
    induction Hloop as [|m chunk ms chunks (cd0 & cd1 & Hbody) _ IH];
      [constructor|].
    constructor; [|done].
    apply message_body_Ok_renderable in Hbody as (Hkeys & _ & Hsender & Hatt).
    done.
Qed.

(** Every message of a page that is produced has contributed one well-formed
    group of fragments: the message is opened once and closed once, an
    outgoing message is signed "Me", and there is at most one divider, one text
    bubble and one attachment element. *)
Theorem create_chat_page_shape (fromtimestamp : Z → result HtmlCreator.datetime)
    (c : chat) (name : string) (sorted : list (gmap string value))
    (chunks : list (list HtmlCreator.fragment)) :
  HtmlCreator._create_chat_page fromtimestamp c = Ok (name, sorted, chunks) →
  length chunks = length (messages c) ∧ Forall message_shape chunks.
Proof.
  unfold HtmlCreator._create_chat_page.
  intros (sorted' & Hsort & (chunks' & Hloop & [= <- <- <-])%bind_Ok)%bind_Ok.
  apply list_sort_Ok_inv in Hsort as [Hperm _].
  apply message_loop_Ok_inv in Hloop. split.
  - rewrite <-Hperm. symmetry. by eapply Forall2_length.
  - clear Hperm.
    induction Hloop as [|m chunk ms chunks' (cd0 & cd1 & Hbody) _ IH];
      [constructor|].
    constructor; [|done].
    apply message_body_Ok_inv in Hbody as
      (d & vs & sn & vme & vt & va & el & _ & _ & _ & _ & _ & _ & _ & Hel & _ & ->).
    apply attachment_fragments_Ok_inv in Hel as [_ Hel].
    eexists _, _, _, _, _, el. split; [done|]. split_and!; [| | |done].
    + case_decide; eauto.
    + destruct (truthy vme); eauto.
    + destruct (truthy vt); eauto.
Qed.

Lemma create_chat_page_shape_witness :
  length
    [[HtmlCreator.DateDivider "1970-01-01";
      HtmlCreator.MessageOpen "message-incoming" "None" "12:00 AM";
      HtmlCreator.TextBubble "first"; HtmlCreator.MessageClose]] = 1%nat ∧
  Forall message_shape
    [[HtmlCreator.DateDivider "1970-01-01";
      HtmlCreator.MessageOpen "message-incoming" "None" "12:00 AM";
      HtmlCreator.TextBubble "first"; HtmlCreator.MessageClose]].
Proof.
  pose (m := Sample.msg VNone 10 false (VStr "first") VNone).
  pose (c := {| chat_id := "s"; display_name := Some "S"; participants := [];
                messages := [m]; last_message_date := 10 |}).
  apply (create_chat_page_shape HtmlCreator.fromtimestamp_utc c "S" [m]).
  unfold HtmlCreator._create_chat_page.
  assert (list_sort date_key false (messages c) = Ok [m]) as -> by reflexivity.
  cbn [mbind result_bind].
  assert (HtmlCreator.message_loop HtmlCreator.fromtimestamp_utc (participants c)
            None [m] =
          Ok [[HtmlCreator.DateDivider "1970-01-01";
               HtmlCreator.MessageOpen "message-incoming" "None" "12:00 AM";
               HtmlCreator.TextBubble "first"; HtmlCreator.MessageClose]])
    as -> by (vm_compute; reflexivity).
  reflexivity.
Defined.

(** *** The dividers of a page *)

Lemma message_body_dividers (fromtimestamp : Z → result HtmlCreator.datetime)
    (ps : list (string * string)) (cd cd' : option string)
    (m : gmap string value) (chunk : list HtmlCreator.fragment) :
  HtmlCreator.message_body fromtimestamp ps cd m = Ok (cd', chunk) →
  ∃ s, cd' = Some s ∧
    ((cd ≠ Some s ∧ dividers [chunk] = [s]) ∨ (cd = Some s ∧ dividers [chunk] = [])).
Proof.
  intros (d & vs & sn & vme & vt & va & el & _ & _ & _ & _ & _ & _ & _ & Hel & -> & ->)
    %message_body_Ok_inv.
  apply attachment_fragments_Ok_inv in Hel as [_ Hel].
  exists (HtmlCreator.strftime_date d). split; [done|].
  unfold dividers. simpl. rewrite app_nil_r.
  assert (Hrest : ∀ cls name time,
    omap (λ f, match f with HtmlCreator.DateDivider s => Some s | _ => None end)
      (HtmlCreator.MessageOpen cls name time ::
       (if truthy vt then [HtmlCreator.TextBubble (format_value vt)] else []) ++
       el ++ [HtmlCreator.MessageClose]) = []).
  { intros cls name time. destruct (truthy vt);
      destruct Hel as [-> | [[p ->] | (p & n & ->)]]; done. }
  rewrite omap_app, Hrest, app_nil_r.
  case_decide as Hcd; [left; by split|right].
  split; [|done].
  by destruct (decide (cd = Some (HtmlCreator.strftime_date d))).
Qed.

Lemma message_loop_dividers (fromtimestamp : Z → result HtmlCreator.datetime)
    (ps : list (string * string)) (ms : list (gmap string value)) :
  ∀ cd chunks,
    HtmlCreator.message_loop fromtimestamp ps cd ms = Ok chunks →
    (∀ s, head (dividers chunks) = Some s → cd ≠ Some s) ∧
    (∀ i s1 s2, dividers chunks !! i = Some s1 →
                dividers chunks !! S i = Some s2 → s1 ≠ s2).
Proof.
  induction ms as [|m ms IH]; intros cd chunks; simpl.
  - intros [= <-]. split; [done|]. by intros [|i].
  - intros ([cd1 chunk] & Hbody & (rest & Hrest & [= <-])%bind_Ok)%bind_Ok.
    destruct (IH _ _ Hrest) as [Hhead Hnext].
    assert (Hdiv : dividers (chunk :: rest) = dividers [chunk] ++ dividers rest).
    { unfold dividers. simpl. by rewrite app_nil_r, omap_app. }
    rewrite Hdiv.
    destruct (message_body_dividers _ _ _ _ _ _ Hbody) as
      (s & -> & [[Hcd ->] | [-> ->]]); simpl.
    + split; [by intros ? [= <-]|].
      intros [|i] s1 s2; simpl.
      * intros [= <-] Hs2 Heq. apply (Hhead s2); [|by rewrite Heq].
        by destruct (dividers rest).
      * apply Hnext.
    + by split.
Qed.

(** No divider of a page repeats the divider before it: two dividers that
    follow one another carry different dates. *)
Theorem create_chat_page_dividers (fromtimestamp : Z → result HtmlCreator.datetime)
    (c : chat) (name : string) (sorted : list (gmap string value))
    (chunks : list (list HtmlCreator.fragment)) (i : nat) (s1 s2 : string) :
  HtmlCreator._create_chat_page fromtimestamp c = Ok (name, sorted, chunks) →
  dividers chunks !! i = Some s1 → dividers chunks !! S i = Some s2 → s1 ≠ s2.
Proof.
  unfold HtmlCreator._create_chat_page.
  intros (sorted' & _ & (chunks' & Hloop & [= <- <- <-])%bind_Ok)%bind_Ok.
  apply message_loop_dividers in Hloop as [_ Hnext]. apply Hnext.
Qed.

Lemma create_chat_page_dividers_witness : "1970-01-01" ≠ "1970-01-02".
Proof.
  pose (m1 := Sample.msg VNone 10 false (VStr "first") VNone).
  pose (m2 := Sample.msg VNone 86410 true VNone VNone).
  pose (c := {| chat_id := "s"; display_name := Some "S"; participants := [];
                messages := [m1; m2]; last_message_date := 10 |}).
  apply (create_chat_page_dividers HtmlCreator.fromtimestamp_utc c "S" [m1; m2]
           [[HtmlCreator.DateDivider "1970-01-01";
             HtmlCreator.MessageOpen "message-incoming" "None" "12:00 AM";
             HtmlCreator.TextBubble "first"; HtmlCreator.MessageClose];
            [HtmlCreator.DateDivider "1970-01-02";
             HtmlCreator.MessageOpen "message-outgoing" "Me" "12:00 AM";
             HtmlCreator.MessageClose]] 0).
  - unfold HtmlCreator._create_chat_page.
    assert (list_sort date_key false (messages c) = Ok [m1; m2]) as -> by reflexivity.
    cbn [mbind result_bind].
    assert (HtmlCreator.message_loop HtmlCreator.fromtimestamp_utc (participants c)
              None [m1; m2] =
            Ok [[HtmlCreator.DateDivider "1970-01-01";
                 HtmlCreator.MessageOpen "message-incoming" "None" "12:00 AM";
                 HtmlCreator.TextBubble "first"; HtmlCreator.MessageClose];
                [HtmlCreator.DateDivider "1970-01-02";
                 HtmlCreator.MessageOpen "message-outgoing" "Me" "12:00 AM";
                 HtmlCreator.MessageClose]])
      as -> by (vm_compute; reflexivity).
    reflexivity.
  - reflexivity.
  - reflexivity.
Defined.

(** *** The sender of an incoming message *)

Lemma participants_get_found (ps : list (string * string)) (k n : string) :
  NoDup ps.*1 → (k, n) ∈ ps →
  HtmlCreator.participants_get ps (VStr k) = Ok (VStr n).
Proof.
  unfold HtmlCreator.participants_get.
  induction ps as [|[k' n'] ps IH]; intros Hnodup Hin; [by apply elem_of_nil in Hin|].
  apply NoDup_cons in Hnodup as [Hk' Hnodup]. cbn.
  apply elem_of_cons in Hin as [[= -> ->] | Hin].
  - by rewrite decide_True by done.
  - rewrite decide_False.
    + specialize (IH Hnodup Hin).
      destruct (list_find _ ps) as [[i p]|]; simpl in *; [done|].
      congruence.
    + simpl. intros ->. apply Hk'.
      apply list_elem_of_fmap. by exists (k, n).
Qed.

Lemma participants_get_missing (ps : list (string * string)) (k : string) :
  k ∉ ps.*1 → HtmlCreator.participants_get ps (VStr k) = Ok (VStr k).
Proof.
  unfold HtmlCreator.participants_get.
  induction ps as [|[k' n'] ps IH]; intros Hk; [done|].
  rewrite fmap_cons in Hk. apply not_elem_of_cons in Hk as [Hk' Hk].
  simpl in Hk'. cbn.
  rewrite decide_False by congruence.
  specialize (IH Hk). by destruct (list_find _ ps) as [[i p]|].
Qed.

(** An incoming message is shown under the display name that the participant
    map gives for its sender, and under the sender identifier itself when
    the map has no such key. *)
Theorem incoming_sender_name (fromtimestamp : Z → result HtmlCreator.datetime)
    (ps : list (string * string)) (cd : option string) (m : gmap string value)
    (sender : string) (v : value) :
  renderable fromtimestamp m →
  m !! "is_from_me" = Some v → truthy v = false →
  m !! "sender" = Some (VStr sender) →
  NoDup ps.*1 →
  ∃ cd' chunk time,
    HtmlCreator.message_body fromtimestamp ps cd m = Ok (cd', chunk) ∧
    (∀ name, (sender, name) ∈ ps →
       HtmlCreator.MessageOpen "message-incoming" name time ∈ chunk) ∧
    (sender ∉ ps.*1 →
       HtmlCreator.MessageOpen "message-incoming" sender time ∈ chunk).
Proof.
  intros Hm Hme Hfalse Hsender Hnodup.
  destruct (message_body_renderable fromtimestamp ps cd m Hm) as
    (d & vs & sn & vme & vt & va & el & _ & Hvs & Hsn & Hvme & _ & _ & _ & _ & Hbody).
  rewrite Hsender in Hvs. injection Hvs as <-.
  rewrite Hme in Hvme. injection Hvme as <-.
  rewrite Hfalse in Hbody.
  eexists _, _, (HtmlCreator.strftime_time d). split; [exact Hbody|]. split.
  - intros name Hname.
    rewrite (participants_get_found ps sender name) in Hsn by done.
    injection Hsn as <-. apply elem_of_app. right. apply list_elem_of_here.
  - intros Hmissing. rewrite (participants_get_missing ps sender) in Hsn by done.
    injection Hsn as <-. apply elem_of_app. right. apply list_elem_of_here.
Qed.

Lemma incoming_sender_name_witness :
  ∃ cd' chunk time,
    HtmlCreator.message_body HtmlCreator.fromtimestamp_utc
      [("1", "Alice"); ("2", "Bob")] None Sample.from_bob = Ok (cd', chunk) ∧
    (∀ name, ("2", name) ∈ [("1", "Alice"); ("2", "Bob")] →
       HtmlCreator.MessageOpen "message-incoming" name time ∈ chunk) ∧
    ("2" ∉ [("1", "Alice"); ("2", "Bob")].*1 →
       HtmlCreator.MessageOpen "message-incoming" "2" time ∈ chunk).
Proof.
  apply (incoming_sender_name HtmlCreator.fromtimestamp_utc
           [("1", "Alice"); ("2", "Bob")] None Sample.from_bob "2" (VBool false)).
  - renderable_literal.
  - reflexivity.
  - reflexivity.
  - reflexivity.
  - simpl. apply NoDup_cons. split; [|apply NoDup_singleton].
    by intros [=]%list_elem_of_singleton.
Defined.

(** *** The attachment of a message *)

Lemma lower_app (s1 s2 : string) : lower (s1 +:+ s2) = lower s1 +:+ lower s2.
Proof.
  induction s1 as [|c s1 IH]; [done|].
  change (String c s1 +:+ s2) with (String c (s1 +:+ s2)). simpl.
  rewrite IH. done.
Qed.

Lemma endswith_app (s ext : string) : endswith (s +:+ ext) ext = true.
Proof.
  unfold endswith. rewrite length_append.
  apply andb_true_iff. split; [apply Nat.leb_le; lia|].
  replace (String.length s + String.length ext - String.length ext)%nat
    with (String.length s) by lia.
  rewrite str_drop_app_length. apply String.eqb_refl.
Qed.

(** A file name that ends in [.jpg], [.jpeg], [.png] or [.gif], in any
    letter case, is shown as an image whose source is the name under
    [../attachments/]. *)
Theorem image_attachment_any_case (stem ext ext' : string) :
  ext ∈ HtmlCreator.image_extensions → lower ext' = ext →
  HtmlCreator.attachment_fragments (VStr (stem +:+ ext')) =
  Ok [HtmlCreator.ImageTag ("../attachments/" +:+ stem +:+ ext')].
Proof.
  intros Hext Hlower. unfold HtmlCreator.attachment_fragments.
  assert (Hne : truthy (VStr (stem +:+ ext')) = true).
  { simpl. apply negb_true_iff. apply String.eqb_neq. apply append_nonempty.
    intros ->. subst ext. unfold HtmlCreator.image_extensions in Hext.
    repeat (apply elem_of_cons in Hext as [Hext | Hext]; [done|]).
    by apply elem_of_nil in Hext. }
  rewrite Hne.
  assert (existsb (endswith (lower (stem +:+ ext'))) HtmlCreator.image_extensions
          = true) as ->; [|done].
  apply existsb_exists. exists ext. split; [by apply list_elem_of_In|].
  rewrite lower_app, Hlower. apply endswith_app.
Qed.

Lemma image_attachment_any_case_witness :
  HtmlCreator.attachment_fragments (VStr ("IMG_0001" +:+ ".JPeG")) =
  Ok [HtmlCreator.ImageTag ("../attachments/" +:+ "IMG_0001" +:+ ".JPeG")].
Proof.
  apply (image_attachment_any_case "IMG_0001" ".jpeg" ".JPeG").
  - unfold HtmlCreator.image_extensions. elem_of_literal.
  - reflexivity.
Defined.

(** An attachment that is true without being a string makes the iteration
    raise [AttributeError], after the date, the sender and the text of the
    message have been read: the five keys are there, the date converts and
    the sender is hashable. *)
Theorem attachment_not_string_raises
    (fromtimestamp : Z → result HtmlCreator.datetime)
    (ps : list (string * string)) (cd : option string) (m : gmap string value)
    (v : value) :
  (∀ k, k ∈ message_keys → is_Some (m !! k)) →
  (∃ d, local_datetime fromtimestamp m = Ok d) →
  (∀ vs, m !! "sender" = Some vs → hashable vs = true) →
  m !! "attachment_path" = Some v → truthy v = true → (∀ s, v ≠ VStr s) →
  HtmlCreator.message_body fromtimestamp ps cd m = Raise AttributeError.
Proof.
  intros Hkeys [d Hd] Hsender Hv Htrue Hstr.
  assert (Hkey : ∀ k, k ∈ message_keys → ∃ v, m !! k = Some v).
  { intros k Hk. by destruct (Hkeys k Hk) as [v' Hv']; exists v'. }
  destruct (Hkey "sender") as [vs Hvs]; [elem_of_literal|].
  destruct (Hkey "is_from_me") as [vme Hvme]; [elem_of_literal|].
  destruct (Hkey "text") as [vt Hvt]; [elem_of_literal|]. clear Hkey.
  destruct (proj1 (participants_get_Ok ps vs) (Hsender vs Hvs)) as [name Hname].
  rewrite (message_body_dated _ _ _ _ _ Hd). unfold getitem.
  rewrite Hvs. cbn. rewrite Hname. cbn. rewrite Hvme, Hvt, Hv. cbn.
  assert (HtmlCreator.attachment_fragments v = Raise AttributeError) as ->; [|done].
  unfold HtmlCreator.attachment_fragments. rewrite Htrue.
  destruct v; try done. by destruct (Hstr s).
Qed.

Lemma attachment_not_string_raises_witness :
  HtmlCreator.message_body HtmlCreator.fromtimestamp_utc [] None Sample.numbered
  = Raise AttributeError.
Proof.
  apply (attachment_not_string_raises HtmlCreator.fromtimestamp_utc [] None
           Sample.numbered (VInt 7)).
  - intros k Hk; unfold message_keys in Hk;
      repeat (apply elem_of_cons in Hk as [-> | Hk]; [eexists; reflexivity|]);
      by apply elem_of_nil in Hk.
  - eexists; vm_compute; reflexivity.
  - intros vs Hvs. vm_compute in Hvs. injection Hvs as <-. reflexivity.
  - reflexivity.
  - reflexivity.
  - done.
Defined.

(** ** html_creator.py: the pages and the index of [create_website] *)

Lemma mapM_Ok_exists {A B : Type} (f : A → result B) (P : A → B → Prop)
    (l : list A) :
  Forall (λ x, ∃ y, f x = Ok y ∧ P x y) l →
  ∃ k, mapM f l = Ok k ∧ Forall2 P l k.
Proof.
  induction 1 as [|x l (y & Hy & HP) _ (k & Hk & HPk)].
  - exists []. split; [done|constructor].
  - exists (y :: k). split; [|by constructor].
    cbn. rewrite Hy. cbn. rewrite Hk. done.
Qed.

Lemma create_chat_page_renderable (fromtimestamp : Z → result HtmlCreator.datetime)
    (c : chat) :
  Forall (renderable fromtimestamp) (messages c) →
  ∃ sorted chunks,
    list_sort date_key false (messages c) = Ok sorted ∧
    HtmlCreator._create_chat_page fromtimestamp c =
      Ok (HtmlCreator.chat_name c, sorted, chunks).
Proof.
  intros Hrender.
  destruct (list_sort_Ok date_key timestamp false (messages c)) as
    (sorted & Hsort & Hperm & _).
  { eapply Forall_impl; [exact Hrender|]. intros m Hm.
    by eapply date_key_timestamp, renderable_has_timestamp. }
  rewrite <-Hperm in Hrender.
  destruct (message_loop_buckets fromtimestamp (participants c) sorted None Hrender)
    as (chunks & Hloop & _).
  exists sorted, chunks. split; [done|].
  unfold HtmlCreator._create_chat_page. rewrite Hsort. cbn. rewrite Hloop. done.
Qed.

Lemma preview_Ok (c : chat) :
  Forall has_timestamp (messages c) → Forall has_text_field (messages c) →
  ∃ p, HtmlCreator.last_message_preview c = Ok p.
Proof.
  intros Hts Htext. unfold HtmlCreator.last_message_preview.
  destruct (messages c) as [|m ms] eqn:Hms; [by eexists|]. rewrite <-Hms in *.
  destruct (list_sort_Ok date_key timestamp true (messages c)) as
    (sorted & -> & Hperm & _).
  { eapply Forall_impl; [exact Hts|]. apply date_key_timestamp. }
  cbn. rewrite <-Hperm in Htext.
  destruct (first_text_spec sorted Htext) as [[_ ->] | (i & m' & _ & _ & _ & ->)];
    by eexists.
Qed.

(** When every message record is one the loop renders, with a text that is
    [null] or a string, and the [last_message_date] of every chat converts,
    [create_website] produces one page per chat, in the order of the input and
    titled with the name of the chat, and an index with one entry per chat:
    the entry carries the identifier and the name of its chat, the same name
    as the title of the chat's page, and the preview of the chat as loaded. *)
Theorem create_website_pages_and_index
    (fromtimestamp : Z → result HtmlCreator.datetime) (chats : list chat) :
  Forall (λ c, Forall (renderable fromtimestamp) (messages c) ∧
               Forall has_text_field (messages c) ∧
               ∃ d, fromtimestamp (last_message_date c) = Ok d) chats →
  ∃ pages index,
    HtmlCreator.create_website fromtimestamp chats = Ok (pages, index) ∧
    pages.*1 = HtmlCreator.chat_name <$> chats ∧
    HtmlCreator.entry_chat_id <$> index ≡ₚ chat_id <$> chats ∧
    Forall (λ e, ∃ c, c ∈ chats ∧
                   HtmlCreator.entry_chat_id e = chat_id c ∧
                   HtmlCreator.entry_chat_name e = HtmlCreator.chat_name c ∧
                   HtmlCreator.last_message_preview c =
                     Ok (HtmlCreator.entry_last_message e)) index.
Proof.
  intros Hchats. unfold HtmlCreator.create_website.
  (* the pages *)
  destruct (mapM_Ok_exists
              (λ chat_json,
                 '(name, sorted, chunks) ←
                   HtmlCreator._create_chat_page fromtimestamp chat_json;
                 Ok (HtmlCreator.with_messages chat_json sorted, (name, chunks)))
              (λ c pg, ∃ sorted chunks,
                 list_sort date_key false (messages c) = Ok sorted ∧
                 pg = (HtmlCreator.with_messages c sorted,
                       (HtmlCreator.chat_name c, chunks))) chats)
    as (pgs & Hmap & Hpgs).
  { eapply Forall_impl; [exact Hchats|]. intros c (Hrender & _ & _).
    destruct (create_chat_page_renderable fromtimestamp c Hrender) as
      (sorted & chunks & Hsort & Hpage).
    eexists. split; [|by exists sorted, chunks].
    rewrite Hpage. done. }
  rewrite Hmap. clear Hmap. cbn.
  (* the documents as the pages leave them *)
  assert (Hdocs : Forall (λ c', ∃ c sorted, c ∈ chats ∧
                     list_sort date_key false (messages c) = Ok sorted ∧
                     c' = HtmlCreator.with_messages c sorted) pgs.*1).
  { clear Hchats. induction Hpgs as [|c pg cs pgs (sorted & chunks & Hsort & ->) _ IH];
      [constructor|].
    rewrite fmap_cons. constructor.
    - exists c, sorted. split_and!; [apply list_elem_of_here|done|done].
    - eapply Forall_impl; [exact IH|]. intros c' (c0 & s0 & Hin & ? & ?).
      exists c0, s0. split_and!; [by apply list_elem_of_further|done|done]. }
  assert (Hids : chat_id <$> pgs.*1 = chat_id <$> chats).
  { clear Hchats Hdocs.
    induction Hpgs as [|c pg cs pgs (sorted & chunks & Hsort & ->) _ IH]; [done|].
    rewrite !fmap_cons. by f_equal. }
  assert (Hnames : pgs.*2.*1 = HtmlCreator.chat_name <$> chats).
  { clear Hchats Hdocs Hids.
    induction Hpgs as [|c pg cs pgs (sorted & chunks & Hsort & ->) _ IH]; [done|].
    rewrite !fmap_cons. by f_equal. }
  (* the index *)
  unfold HtmlCreator._create_index_page, HtmlCreator.sort_chats.
  destruct (list_sort_Ok (λ c, Ok (VInt (last_message_date c))) last_message_date
              true pgs.*1) as (out & -> & Hperm & _).
  { apply Forall_true. intros c. by eexists. }
  cbn. rewrite <-Hperm in Hdocs.
  destruct (mapM_Ok_exists (HtmlCreator.index_entry_of fromtimestamp)
              (λ c' e, HtmlCreator.entry_chat_id e = chat_id c' ∧
                 ∃ c, c ∈ chats ∧
                   HtmlCreator.entry_chat_id e = chat_id c ∧
                   HtmlCreator.entry_chat_name e = HtmlCreator.chat_name c ∧
                   HtmlCreator.last_message_preview c =
                     Ok (HtmlCreator.entry_last_message e)) out)
    as (index & -> & Hindex).
  { eapply Forall_impl; [exact Hdocs|].
    intros c' (c & sorted & Hin & Hsort & ->).
    rewrite Forall_forall in Hchats.
    destruct (Hchats c Hin) as (Hrender & Htext & d & Hd).
    assert (Hts : Forall has_timestamp (messages c)).
    { eapply Forall_impl; [exact Hrender|]. apply renderable_has_timestamp. }
    destruct (preview_Ok c Hts Htext) as [p Hp].
    unfold HtmlCreator.index_entry_of. simpl. rewrite Hd. cbn.
    rewrite (preview_sorted_unchanged c sorted Hts Hsort), Hp. cbn.
    eexists. split; [done|]. simpl. split; [done|].
    exists c. by split_and!. }
  cbn. exists pgs.*2, index. split_and!; [done|done| |].
  - rewrite <-Hids, <-Hperm. clear -Hindex.
    induction Hindex as [|c' e out index [Hid _] _ IH]; [done|].
    rewrite !fmap_cons, Hid. by f_equiv.
  - clear -Hindex.
    induction Hindex as [|c' e out index [_ He] _ IH]; constructor; done.
Qed.

Lemma create_website_pages_and_index_witness :
  ∃ pages index,
    HtmlCreator.create_website HtmlCreator.fromtimestamp_utc
      [Sample.stale; Sample.fresh] = Ok (pages, index) ∧
    pages.*1 = HtmlCreator.chat_name <$> [Sample.stale; Sample.fresh] ∧
    HtmlCreator.entry_chat_id <$> index ≡ₚ chat_id <$> [Sample.stale; Sample.fresh] ∧
    Forall (λ e, ∃ c, c ∈ [Sample.stale; Sample.fresh] ∧
                   HtmlCreator.entry_chat_id e = chat_id c ∧
                   HtmlCreator.entry_chat_name e = HtmlCreator.chat_name c ∧
                   HtmlCreator.last_message_preview c =
                     Ok (HtmlCreator.entry_last_message e)) index.
Proof.
  apply (create_website_pages_and_index HtmlCreator.fromtimestamp_utc
           [Sample.stale; Sample.fresh]).
  forall_each ltac:(split_and!;
    [ forall_each renderable_literal
    | forall_each ltac:(right; eexists; reflexivity)
    | eexists; vm_compute; reflexivity ]).
Defined.

(** The index of the two sample documents: the larger [last_message_date]
    first, each entry with the text of its chat. *)
Example create_website_sample :
  match HtmlCreator.create_website HtmlCreator.fromtimestamp_utc
          [Sample.stale; Sample.fresh] with
  | Ok (pages, index) =>
      pages.*1 = ["A"; "B"] ∧
      index =
        [{| HtmlCreator.entry_chat_id := "b"; HtmlCreator.entry_chat_name := "B";
            HtmlCreator.entry_last_message := "y";
            HtmlCreator.entry_last_message_date := "1970-01-01 12:03 AM" |};
         {| HtmlCreator.entry_chat_id := "a"; HtmlCreator.entry_chat_name := "A";
            HtmlCreator.entry_last_message := "x";
            HtmlCreator.entry_last_message_date := "1970-01-01 12:01 AM" |}]
  | Raise _ => False
  end.
Proof. vm_compute. by split. Qed.

Lemma mapM_Raise_exists {A B : Type} (f : A → result B) (l : list A) :
  Exists (λ x, ∃ e, f x = Raise e) l → ∃ e, mapM f l = Raise e.
Proof.
  induction 1 as [x l [e He] | x l _ [e IH]]; cbn.
  - rewrite He. by exists e.
  - destruct (f x) as [y|e']; cbn; [|by exists e'].
    rewrite IH. by exists e.
Qed.

(** One chat whose [last_message_date] does not convert makes the index page
    raise, whatever the other chats hold: no index is produced. *)
Theorem create_index_page_date_raises
    (fromtimestamp : Z → result HtmlCreator.datetime) (chats : list chat) (c : chat)
    (e : exn) :
  c ∈ chats → fromtimestamp (last_message_date c) = Raise e →
  ∃ e', HtmlCreator._create_index_page fromtimestamp chats = Raise e'.
Proof.
  intros Hin He. unfold HtmlCreator._create_index_page, HtmlCreator.sort_chats.
  destruct (list_sort_Ok (λ c, Ok (VInt (last_message_date c))) last_message_date
              true chats) as (out & -> & Hperm & _).
  { apply Forall_true. intros c'. by eexists. }
  cbn. apply mapM_Raise_exists. apply Exists_exists. exists c.
  split; [by rewrite Hperm|].
  exists e. unfold HtmlCreator.index_entry_of. by rewrite He.
Qed.

Lemma create_index_page_date_raises_witness :
  ∃ e', HtmlCreator._create_index_page HtmlCreator.fromtimestamp_utc
          [Sample.notes;
           {| chat_id := "far"; display_name := Some "Far"; participants := [];
              messages := []; last_message_date := 1000000000000000000 |}]
        = Raise e'.
Proof.
  eapply (create_index_page_date_raises HtmlCreator.fromtimestamp_utc _
            {| chat_id := "far"; display_name := Some "Far"; participants := [];
               messages := []; last_message_date := 1000000000000000000 |}).
  - apply list_elem_of_further, list_elem_of_here.
  - vm_compute. reflexivity.
Defined.

Lemma create_chat_page_Ok_conditions_witness :
  (∃ page, HtmlCreator._create_chat_page HtmlCreator.fromtimestamp_utc Sample.fresh
           = Ok page) ∧
  Forall (λ m, (∀ k, k ∈ message_keys → is_Some (m !! k)) ∧
               (∀ v, m !! "sender" = Some v → hashable v = true) ∧
               (∀ v, m !! "attachment_path" = Some v → attachment_ok v = true))
         (messages Sample.fresh).
Proof.
  assert (Hpage : ∃ page, HtmlCreator._create_chat_page HtmlCreator.fromtimestamp_utc
                            Sample.fresh = Ok page).
  { apply (proj1 (create_chat_page_Ok_conditions HtmlCreator.fromtimestamp_utc
                    Sample.fresh)).
    forall_each renderable_literal. }
  split; [exact Hpage|].
  apply (proj2 (create_chat_page_Ok_conditions HtmlCreator.fromtimestamp_utc
                  Sample.fresh)).
  exact Hpage.
Defined.

Lemma get_archive_format_Ok_iff_witness :
  Utils.get_archive_format "backup.tbz" = Ok "bztar".
Proof.
  apply (proj2 (get_archive_format_Ok_iff "backup.tbz" "bztar")).
  vm_compute. elem_of_literal.
Defined.

(** ** html_creator.py: what stops the generation *)




(** When every message has a [date] and one of the dates is no integer
    ([null] or a string), the chat page raises [TypeError]. *)
Theorem create_chat_page_bad_date (fromtimestamp : Z → result HtmlCreator.datetime)
    (c : chat) :
  Forall (λ m, is_Some (m !! "date")) (messages c) →
  Exists (λ m, m !! "date" = Some VNone ∨ ∃ s, m !! "date" = Some (VStr s))
         (messages c) →
  HtmlCreator._create_chat_page fromtimestamp c = Raise TypeError.
Proof.
  intros Hall Hbad. unfold HtmlCreator._create_chat_page, list_sort.
  destruct (mapM_Ok_exists date_key (λ m v, m !! "date" = Some v) (messages c))
    as (vs & -> & Hvs).
  { eapply Forall_impl; [exact Hall|]. intros m [v Hv]. exists v.
    split; [|done]. unfold date_key, getitem. by rewrite Hv. }
  cbn. case_decide as Hlen.
  { (* one message: the sort compares nothing, and the loop converts the date *)
    destruct (messages c) as [|m [|m' ms]]; simpl in Hlen; [|clear Hlen|lia].
    - by apply Exists_nil in Hbad.
    - apply Exists_cons in Hbad as [Hm | Hbad]; [|by apply Exists_nil in Hbad].
      cbn. unfold HtmlCreator.message_body, timestamp_of, date_key, getitem.
      by destruct Hm as [-> | [s ->]]. }
  clear Hlen.
  assert (mapM as_int vs = Raise TypeError) as ->; [|done].
  induction Hvs as [|m v ms vs Hv _ IH]; [by apply Exists_nil in Hbad|].
  apply Forall_cons in Hall as [_ Hall].
  change (mapM as_int (v :: vs))
    with (y ← as_int v; k ← mapM as_int vs; mret (y :: k)).
  apply Exists_cons in Hbad as [[Hm | [s Hm]] | Hbad].
  - rewrite Hm in Hv. by injection Hv as <-.
  - rewrite Hm in Hv. by injection Hv as <-.
  - destruct v; cbn; try done; by rewrite (IH Hall Hbad).
Qed.

Lemma create_chat_page_bad_date_witness :
  HtmlCreator._create_chat_page HtmlCreator.fromtimestamp_utc
    {| chat_id := "z"; display_name := None; participants := [];
       messages := [Sample.note 3 "a"; {[ "date" := VNone ]}];
       last_message_date := 3 |} = Raise TypeError.
Proof.
  apply (create_chat_page_bad_date HtmlCreator.fromtimestamp_utc).
  - forall_each ltac:(eexists; reflexivity).
  - apply Exists_cons_tl, Exists_cons_hd. left. reflexivity.
Defined.
